(** * The conversation session, the result-archive download and the diff model

    A shallow embedding of three pieces of the toolkit:

    - [src/weaverbird/session/session.ts]: the [Session] class that drives a
      conversation through its [SessionState]s;
    - the archive download helper ([downloadExportResultArchive]) that
      reassembles the streamed body of [ExportResultArchive];
    - the [DiffModel] used by the transformation results view.

    Part I holds the model, Part II the properties proved about it. *)

From Stdlib Require Import ZArith String List Lia.
From Stdlib.Strings Require Import Byte.
From stdpp Require Import base option list gmap strings.

Open Scope string_scope.

(* ===================================================================== *)
(** * Part I.  The model                                                  *)
(* ===================================================================== *)

(** ** JavaScript values that reach a template literal, and thrown values *)

Module Js.

(** The values whose string conversion the code relies on. The code does
    nothing with a number but convert it to a string, so a number is given
    by what [String] yields for it ("429", "1e+21", "NaN"). *)
Inductive Value :=
| undefined
| null
| JString (s : string)
| JNumber (rendering : string)
| JBool (b : bool).

(** [String(v)], as a template literal [`${v}`] applies it. *)
Definition toString (v : Value) : string :=
  match v with
  | undefined => "undefined"
  | null => "null"
  | JString s => s
  | JNumber rendering => rendering
  | JBool true => "true"
  | JBool false => "false"
  end.

(** A thrown object, seen through its class and the three properties the
    session reads from it. *)
Record ErrorObject := {
  className : string;
  code : Value;
  statusCode : Value;
  message : Value;
}.

(** Whatever a [catch (e: any)] clause receives: any value can be thrown, a
    primitive ([undefined] and [null] included) as well as an object. *)
Inductive Thrown :=
| Primitive (v : Value)
| Object (o : ErrorObject).

(** The [TypeError] of a property read on [undefined] or [null]. *)
Definition cannotRead (v : Value) (property : string) : Thrown :=
  Object {| className := "TypeError";
            code := undefined;
            statusCode := undefined;
            message := JString ("Cannot read properties of " ++ toString v
                                ++ " (reading '" ++ property ++ "')") |}.

(** The property read [e.p], for [p] one of the three properties: it throws
    on [undefined] and [null], gives [undefined] on the other primitives,
    and the property on an object. *)
Definition get (p : ErrorObject -> Value) (name : string) (e : Thrown)
    : Thrown + Value :=
  match e with
  | Primitive undefined => inl (cannotRead undefined name)
  | Primitive null => inl (cannotRead null name)
  | Primitive _ => inr undefined
  | Object o => inr (p o)
  end.

(** Truthiness of a [string | undefined]: [undefined] and [''] are falsy. *)
Definition truthy (o : option string) : bool :=
  match o with
  | Some s => negb (String.eqb s "")
  | None => false
  end.

End Js.

(** An error object where a thrown value is expected is that object,
    thrown. *)
Coercion Js.Object : Js.ErrorObject >-> Js.Thrown.

(** ** Result archive retrieval ([downloadExportResultArchive]) *)

Module Archive.

Abbreviation Bytes := (list Byte.byte).

(** [ExportResultArchiveStructure]: where the documents sit in the archive.
    [path.join] of two plain segments puts the separator between them. *)
Definition sep : string := "/".
Definition PathToSummary : string := "summary" ++ sep ++ "summary.md".
Definition PathToDiffPatch : string := "patch" ++ sep ++ "diff.patch".
Definition PathToManifest : string := "manifest.json".

(** A [BinaryPayloadEvent]; its [bytes] member is optional. *)
Record BinaryPayloadEvent := { bytes : option Bytes }.

(** One event of the response stream: it carries a binary payload event, or
    it is an event of another kind (named by [otherEvent]). *)
Record Chunk := {
  binaryPayloadEvent : option BinaryPayloadEvent;
  otherEvent : option string;
}.

(** The async iterable [result.body]: the chunks it yields, then either the
    end of the stream or a read failure. *)
Record Body := {
  chunks : list Chunk;
  readFailure : option Js.Thrown;
}.

Record Response := {
  body : option Body;
  requestId : option string;   (* result.$metadata.requestId *)
}.

(** What the function throws: the [ToolkitError] it raises itself, or a
    failure of a collaborator that it lets through. *)
Inductive Failure :=
| ToolkitError (msg : string)
| Propagated (e : Js.Thrown).

Record LatencyEvent := {
  codeTransformApiNames : string;
  codeTransformSessionId : string;
  codeTransformJobId : string;
  codeTransformRunTimeLatency : Z;
  codeTransformTotalByteSize : nat;
  codeTransformRequestId : option string;
}.

(** The surroundings the function acts on: the file system behind
    [fs.writeFile], the telemetry sink, the clock, and the ambient session
    and job identifiers of the transformation. Time is not modelled: the
    clock reads the same throughout a call, and what the latency helper makes
    of it is left open. *)
Record Host := {
  files : gmap string Bytes;
  emitted : list LatencyEvent;
  now : Z;
  sessionId : string;
  jobId : string;
}.

(** [fs.writeFile]: the whole file is replaced. The write itself is taken
    to succeed. *)
Definition writeFile (toPath : string) (data : Bytes) (h : Host) : Host :=
  {| files := <[toPath := data]> (files h);
     emitted := emitted h; now := now h;
     sessionId := sessionId h; jobId := jobId h |}.

Definition emit (ev : LatencyEvent) (h : Host) : Host :=
  {| files := files h;
     emitted := emitted h ++ [ev]; now := now h;
     sessionId := sessionId h; jobId := jobId h |}.

(** The loop state: [buffer] and [totalDownloadBytes]. *)
Record Acc := {
  buffer : list Bytes;
  totalDownloadBytes : nat;
}.

Definition acc0 : Acc := {| buffer := []; totalDownloadBytes := 0 |}.

(** The body of the [for await] loop. A [Uint8Array] is an object, so
    [if (chunkData.bytes)] holds for every array that is present, the empty
    one included. *)
Definition step (a : Acc) (chunk : Chunk) : Acc :=
  match binaryPayloadEvent chunk with
  | Some chunkData =>
      match bytes chunkData with
      | Some bs =>
          {| buffer := buffer a ++ [bs];
             totalDownloadBytes := totalDownloadBytes a + length bs |}
      | None => a
      end
  | None => a
  end.

Definition consume (cs : list Chunk) (a : Acc) : Acc := fold_left step cs a.

(** [Buffer.concat]. *)
Definition Buffer_concat (fragments : list Bytes) : Bytes := concat fragments.

Definition emptyResponse : string :=
  "Empty response from Amazon Q inline suggestions streaming service".

(** How a call ends, and the surroundings it leaves behind. *)
Inductive Outcome :=
| Completed (h : Host)
| Failed (f : Failure) (h : Host).

Section Download.

(** The request descriptor, the streaming client seen as the outcome of
    [exportResultArchive], and the latency helper of the telemetry
    module (from the start time and the time of the call). *)
Context {Args : Type}.
Variable calculateTotalLatency : Z -> Z -> Z.

Definition downloadExportResultArchive
    (cwStreamingClient : Args -> Js.Thrown + Response)
    (exportResultArchiveArgs : Args) (toPath : string)
    (h : Host) : Outcome :=
  let apiStartTime := now h in
  match cwStreamingClient exportResultArchiveArgs with
  | inl e => Failed (Propagated e) h
  | inr result =>
      match body result with
      | None => Failed (ToolkitError emptyResponse) h
      | Some b =>
          let a := consume (chunks b) acc0 in
          match readFailure b with
          | Some e => Failed (Propagated e) h
          | None =>
              let h1 := writeFile toPath (Buffer_concat (buffer a)) h in
              Completed
                (emit
                   {| codeTransformApiNames := "ExportResultArchive";
                      codeTransformSessionId := sessionId h1;
                      codeTransformJobId := jobId h1;
                      codeTransformRunTimeLatency :=
                        calculateTotalLatency apiStartTime (now h1);
                      codeTransformTotalByteSize := totalDownloadBytes a;
                      codeTransformRequestId := requestId result |}
                   h1)
          end
      end
  end.

End Download.

(** The binary-payload fragments of a chunk sequence, in arrival order: the
    reference the download is compared with. *)
Definition payloadOf (c : Chunk) : Bytes :=
  match binaryPayloadEvent c with
  | Some ev => default [] (bytes ev)
  | None => []
  end.

Definition payloads (cs : list Chunk) : Bytes := concat (map payloadOf cs).

End Archive.

(** ** The conversation session ([session.ts]) *)

Module Weaverbird.

(** The collaborators' own data, which the session only passes along: the
    backend client and its configurations, the file-system capability, the
    chat sink, the collected workspace files, and the state of everything
    outside the session (backend, workspace). *)
Class Platform := {
  Client : Type;
  LlmConfig : Type;
  BackendConfig : Type;
  FileSystem : Type;
  AddToChat : Type;
  Files : Type;
  Env : Type;
}.

Inductive Origin := ai | user.

Record Interaction := {
  origin : Origin;
  type : string;
  content : string;
}.

(** A [vscode.CancellationTokenSource]. *)
Record CancellationTokenSource := { isCancellationRequested : bool }.

Definition cancel (t : CancellationTokenSource) : CancellationTokenSource :=
  {| isCancellationRequested := true |}.

(** Objects live in a store and are named by their address; [Session._state]
    and [nextState] hold addresses. *)
Abbreviation loc := nat.

Section Model.
Context `{Platform}.

Record SessionConfig := {
  client : Client;
  llmConfig : LlmConfig;
  workspaceRoot : string;
  backendConfig : BackendConfig;
  fs : FileSystem;
}.

(** [SessionStateConfig]; [cfg_conversationId] is [None] for the
    [Omit<SessionStateConfig, 'conversationId'>] that
    [getSessionStateConfig] builds. *)
Record SessionStateConfig := {
  cfg_client : Client;
  cfg_llmConfig : LlmConfig;
  cfg_workspaceRoot : string;
  cfg_backendConfig : BackendConfig;
  cfg_conversationId : option string;
}.

Inductive StateClass :=
| RefinementStateClass
| CodeGenStateClass
| OtherStateClass (name : string).

(** What the session sees of a [SessionState] object. *)
Record SessionState := {
  classOf : StateClass;
  stateConfig : SessionStateConfig;
  conversationId : option string;
  st_approach : string;
  tokenSource : CancellationTokenSource;
}.

Record SessionStateAction := {
  act_files : Files;
  act_task : string;
  act_msg : option string;
  act_fs : FileSystem;
  act_addToChat : AddToChat;
}.

(** The answer of [interact]. *)
Record SessionStateInteraction := {
  nextState : option loc;
  interactions : list Interaction;
}.

Record Session := {
  _state : loc;
  task : string;
  approach : string;
  config : SessionConfig;
  addToChat : AddToChat;
}.

(** What the session does to its collaborators and to [_state], in
    program order. *)
Inductive Event :=
| CollectFiles (dir : string)
| Interact (this : loc) (action : SessionStateAction)
| Cancel (this : loc)
| Install (next : loc).

Record World := {
  heap : gmap loc SessionState;
  session : Session;
  env : Env;
  trace : list Event;
}.

(** The code of the repository and of the runtime that the session calls
    and that is not part of [session.ts]: [path.join], [collectFiles], the
    [interact] method of whatever state is current (it may change the
    store: its own fields, new state objects), and the error class of
    [errors.ts]. *)
Class Collaborators := {
  path_join : string -> string -> string;
  collectFiles : string -> Env -> (Js.Thrown + Files) * Env;
  interact : loc -> SessionStateAction -> gmap loc SessionState -> Env ->
             (Js.Thrown + SessionStateInteraction) * gmap loc SessionState * Env;
  ConversationIdNotFoundError : Js.Thrown;
}.

(** *** The monad of the methods: state and exceptions *)

Inductive Outcome (A : Type) :=
| Returns (a : A) (w : World)
| Throws (e : Js.Thrown) (w : World).
Global Arguments Returns {A} a w.
Global Arguments Throws {A} e w.

Definition M (A : Type) := World -> Outcome A.

Definition ret {A} (a : A) : M A := fun w => Returns a w.

Definition throw {A} (e : Js.Thrown) : M A := fun w => Throws e w.

Definition bind {A B} (m : M A) (k : A -> M B) : M B :=
  fun w =>
    match m w with
    | Returns a w' => k a w'
    | Throws e w' => Throws e w'
    end.

Definition worldOf {A} (o : Outcome A) : World :=
  match o with
  | Returns _ w => w
  | Throws _ w => w
  end.

End Model.

Declare Scope session_scope.
Delimit Scope session_scope with session.
Notation "x <- m ;; k" := (bind m (fun x => k))
  (at level 100, m at next level, right associativity) : session_scope.
Notation "m ;;; k" := (bind m (fun _ => k))
  (at level 100, right associativity) : session_scope.

Local Open Scope session_scope.

Section Methods.
Context {P : Platform} {C : Collaborators}.

(** *** Access to the fields of [this] and to the store *)

Definition getSession : M Session := fun w => Returns (session w) w.

Definition putSession (s : Session) : M unit :=
  fun w =>
    Returns tt {| heap := heap w; session := s; env := env w; trace := trace w |}.

Definition log (ev : Event) : M unit :=
  fun w =>
    Returns tt {| heap := heap w; session := session w; env := env w;
                  trace := trace w ++ [ev] |}.

(** [this.task = t] *)
Definition setTask (t : string) : M unit :=
  s <- getSession ;;
  putSession {| _state := _state s; task := t; approach := approach s;
                config := config s; addToChat := addToChat s |}.

(** [this.approach = a] *)
Definition setApproach (a : string) : M unit :=
  s <- getSession ;;
  putSession {| _state := _state s; task := task s; approach := a;
                config := config s; addToChat := addToChat s |}.

(** [this._state = l] *)
Definition setState (l : loc) : M unit :=
  s <- getSession ;;
  putSession {| _state := l; task := task s; approach := approach s;
                config := config s; addToChat := addToChat s |} ;;;
  log (Install l).

(** An object reference in JavaScript always leads to its object. The
    store of the model is a finite map, so reading through an address
    that the store does not hold has to be given a meaning: it throws. *)
Definition danglingReference : Js.Thrown :=
  {| Js.className := "TypeError"; Js.code := Js.undefined;
     Js.statusCode := Js.undefined;
     Js.message := Js.JString "Cannot read properties of undefined" |}.

(** The getter [this.state], followed by a read of the object. *)
Definition state : M SessionState :=
  fun w =>
    match heap w !! _state (session w) with
    | Some o => Returns o w
    | None => Throws danglingReference w
    end.

(** [new C(...)]: the object is put at an address not yet in use. *)
Definition new (o : SessionState) : M loc :=
  fun w =>
    let l := fresh (dom (heap w)) in
    Returns l {| heap := <[l := o]> (heap w); session := session w;
                 env := env w; trace := trace w |}.

(** A write to a field of the object at [l]. *)
Definition update (l : loc) (f : SessionState -> SessionState) : M unit :=
  fun w =>
    Returns tt {| heap := alter f l (heap w); session := session w;
                  env := env w; trace := trace w |}.

Definition withApproach (a : string) (o : SessionState) : SessionState :=
  {| classOf := classOf o; stateConfig := stateConfig o;
     conversationId := conversationId o; st_approach := a;
     tokenSource := tokenSource o |}.

Definition withCancelledToken (o : SessionState) : SessionState :=
  {| classOf := classOf o; stateConfig := stateConfig o;
     conversationId := conversationId o; st_approach := st_approach o;
     tokenSource := cancel (tokenSource o) |}.

(** [tokenSource.cancel()] on the object at [l]. *)
Definition cancelToken (l : loc) : M unit :=
  update l withCancelledToken ;;;
  log (Cancel l).

(** *** The state classes of [sessionState.ts] *)

(** Modelled from the spec: the constructor [RefinementState] of
    [sessionState.ts], which is not among the sources. The spec has it as
    the initial state, built from a configuration without a conversation
    id and an approach, owning a cancellation token of its own, and
    having no conversation id while fresh. *)
Definition RefinementState (cfg : SessionStateConfig) (a : string) : SessionState :=
  {| classOf := RefinementStateClass; stateConfig := cfg;
     conversationId := None; st_approach := a;
     tokenSource := {| isCancellationRequested := false |} |}.

(** Modelled from the spec: the constructor [CodeGenState] of
    [sessionState.ts], which is not among the sources. The spec has the
    state seeded with the conversation id of its configuration and with
    the approach it is given, owning a cancellation token of its own. *)
Definition CodeGenState (cfg : SessionStateConfig) (a : string) : SessionState :=
  {| classOf := CodeGenStateClass; stateConfig := cfg;
     conversationId := cfg_conversationId cfg; st_approach := a;
     tokenSource := {| isCancellationRequested := false |} |}.

(** *** The calls to the collaborators *)

Definition callCollectFiles (dir : string) : M Files :=
  log (CollectFiles dir) ;;;
  fun w =>
    let '(r, env') := collectFiles dir (env w) in
    let w' := {| heap := heap w; session := session w; env := env';
                 trace := trace w |} in
    match r with
    | inl e => Throws e w'
    | inr files => Returns files w'
    end.

(** [this.state.interact(action)] *)
Definition callInteract (action : SessionStateAction) : M SessionStateInteraction :=
  s <- getSession ;;
  log (Interact (_state s) action) ;;;
  fun w =>
    let '(r, heap', env') := interact (_state s) action (heap w) (env w) in
    let w' := {| heap := heap'; session := session w; env := env';
                 trace := trace w |} in
    match r with
    | inl e => Throws e w'
    | inr resp => Returns resp w'
    end.

(** *** The methods of [Session] *)

Definition getSessionStateConfig (s : Session) : SessionStateConfig :=
  {| cfg_client := client (config s);
     cfg_llmConfig := llmConfig (config s);
     cfg_workspaceRoot := workspaceRoot (config s);
     cfg_backendConfig := backendConfig (config s);
     cfg_conversationId := None |}.

Definition withConversationId (cfg : SessionStateConfig) (cid : option string)
    : SessionStateConfig :=
  {| cfg_client := cfg_client cfg; cfg_llmConfig := cfg_llmConfig cfg;
     cfg_workspaceRoot := cfg_workspaceRoot cfg;
     cfg_backendConfig := cfg_backendConfig cfg;
     cfg_conversationId := cid |}.

Definition nextInteraction (msg : option string) : M (list Interaction) :=
  s <- getSession ;;
  files <- callCollectFiles (path_join (workspaceRoot (config s)) "src") ;;
  s <- getSession ;;
  resp <- callInteract {| act_files := files; act_task := task s;
                          act_msg := msg; act_fs := fs (config s);
                          act_addToChat := addToChat s |} ;;
  match nextState resp with
  | Some next =>
      (* Approach may have been changed after the interaction *)
      cur <- state ;;
      let newApproach := st_approach cur in
      (* Cancel the request before moving to a new state *)
      s <- getSession ;;
      cancelToken (_state s) ;;;
      (* Move to the next state *)
      setState next ;;;
      (* If approach was changed then we need to set it in the next state
         and this state *)
      update next (withApproach newApproach) ;;;
      setApproach newApproach ;;;
      ret (interactions resp)
  | None => ret (interactions resp)
  end.

Definition startCodegen : M unit :=
  cur <- state ;;
  if negb (Js.truthy (conversationId cur)) then
    throw ConversationIdNotFoundError
  else
    s <- getSession ;;
    l <- new (CodeGenState
                (withConversationId (getSessionStateConfig s) (conversationId cur))
                (approach s)) ;;
    setState l ;;;
    _ <- nextInteraction None ;;
    ret tt.

Definition finished : string :=
  "Finished the session for you. Feel free to restart the session by typing the task you want to achieve.".

Definition sendUnsafe (msg : string) : M (list Interaction) :=
  s <- getSession ;;
  let sessionStageConfig := getSessionStateConfig s in
  if String.eqb msg "CLEAR" then
    setTask "" ;;;
    setApproach "" ;;;
    s' <- getSession ;;
    l <- new (RefinementState sessionStageConfig (approach s')) ;;
    setState l ;;;
    ret [ {| origin := ai; type := "message"; content := finished |} ]
  else
    (* When the task hasn't been set yet, we want it to be the incoming
       message *)
    s' <- getSession ;;
    (if String.eqb (task s') "" then setTask msg else ret tt) ;;;
    nextInteraction (Some msg).

Definition failureNotice (code statusCode message : Js.Value) : Interaction :=
  {| origin := ai;
     type := "message";
     content :=
       "Received error: " ++ Js.toString code
       ++ " and status code: " ++ Js.toString statusCode
       ++ " [" ++ Js.toString message
       ++ "] when trying to send the request to the Weaverbird API" |}.

(** The [catch] clause of [send]: the template literal reads [e.code],
    [e.statusCode] and [e.message] in this order, and a read that throws
    ends the clause. *)
Definition catchClause (e : Js.Thrown) : Js.Thrown + list Interaction :=
  match Js.get Js.code "code" e with
  | inl thrown => inl thrown
  | inr code =>
      match Js.get Js.statusCode "statusCode" e with
      | inl thrown => inl thrown
      | inr statusCode =>
          match Js.get Js.message "message" e with
          | inl thrown => inl thrown
          | inr message => inr [failureNotice code statusCode message]
          end
      end
  end.

(** [send]: what its caller gets, the returned array or the value thrown
    out of the [catch] clause, and the world it leaves. Logging is left
    out. *)
Definition send (msg : string) (w : World)
    : (Js.Thrown + list Interaction) * World :=
  match sendUnsafe msg w with
  | Returns out w' => (inr out, w')
  | Throws e w' => (catchClause e, w')
  end.

(** [new Session(sessionConfig, addToChat)], in a store [h]. *)
Definition newSession (sessionConfig : SessionConfig) (chat : AddToChat)
    (h : gmap loc SessionState) (e : Env) : World :=
  let l := fresh (dom h) in
  let this := {| _state := l; task := ""; approach := "";
                 config := sessionConfig; addToChat := chat |} in
  {| heap := <[l := RefinementState (getSessionStateConfig this) ""]> h;
     session := this; env := e; trace := [Install l] |}.

(** A conversation: the messages of the chat view, sent one after the
    other. *)
Fixpoint sendAll (msgs : list string) (w : World) : World :=
  match msgs with
  | [] => w
  | msg :: rest => sendAll rest (send msg w).2
  end.

(** The directory handed to [collectFiles] and the action handed to
    [interact] in a turn. *)
Definition srcDir (s : Session) : string :=
  path_join (workspaceRoot (config s)) "src".

Definition actionFor (s : Session) (files : Files) (msg : option string)
    : SessionStateAction :=
  {| act_files := files; act_task := task s; act_msg := msg;
     act_fs := fs (config s); act_addToChat := addToChat s |}.

(** The task after a message that is not the control message. *)
Definition taskAfter (s : Session) (msg : string) : string :=
  if String.eqb (task s) "" then msg else task s.

Definition withTask (t : string) (w : World) : World :=
  {| heap := heap w;
     session := {| _state := _state (session w); task := t;
                   approach := approach (session w);
                   config := config (session w);
                   addToChat := addToChat (session w) |};
     env := env w; trace := trace w |}.

(** The session right after [this._state = new CodeGenState(...)] in
    [startCodegen], when [cur] is the state that was current. *)
Definition seededCodeGen (s : Session) (cur : SessionState) : SessionState :=
  CodeGenState
    (withConversationId (getSessionStateConfig s) (conversationId cur))
    (approach s).

Definition codeGenInstalled (w : World) (cur : SessionState) : World :=
  let l := fresh (dom (heap w)) in
  {| heap := <[l := seededCodeGen (session w) cur]> (heap w);
     session := {| _state := l; task := task (session w);
                   approach := approach (session w);
                   config := config (session w);
                   addToChat := addToChat (session w) |};
     env := env w;
     trace := trace w ++ [Install l] |}.

(** *** One interaction step, case by case

    The ways a call of [nextInteraction] can end, and the world each leaves:
    [collectFiles] throws; [interact] throws; the handler signals no
    transition; it signals one and the current state is read, cancelled and
    replaced. *)

Inductive Turn (msg : option string) (w : World) : Outcome (list Interaction) -> Prop :=
| collect_throws e env1 :
    collectFiles (srcDir (session w)) (env w) = (inl e, env1) ->
    Turn msg w
      (Throws e {| heap := heap w; session := session w; env := env1;
                   trace := trace w ++ [CollectFiles (srcDir (session w))] |})
| interact_throws files env1 e heap2 env2 :
    collectFiles (srcDir (session w)) (env w) = (inr files, env1) ->
    interact (_state (session w)) (actionFor (session w) files msg) (heap w) env1
    = (inl e, heap2, env2) ->
    Turn msg w
      (Throws e {| heap := heap2; session := session w; env := env2;
                   trace := trace w
                            ++ [CollectFiles (srcDir (session w));
                                Interact (_state (session w))
                                  (actionFor (session w) files msg)] |})
| stays files env1 resp heap2 env2 :
    collectFiles (srcDir (session w)) (env w) = (inr files, env1) ->
    interact (_state (session w)) (actionFor (session w) files msg) (heap w) env1
    = (inr resp, heap2, env2) ->
    nextState resp = None ->
    Turn msg w
      (Returns (interactions resp)
         {| heap := heap2; session := session w; env := env2;
            trace := trace w
                     ++ [CollectFiles (srcDir (session w));
                         Interact (_state (session w))
                           (actionFor (session w) files msg)] |})
| current_missing files env1 resp heap2 env2 next :
    collectFiles (srcDir (session w)) (env w) = (inr files, env1) ->
    interact (_state (session w)) (actionFor (session w) files msg) (heap w) env1
    = (inr resp, heap2, env2) ->
    nextState resp = Some next ->
    heap2 !! _state (session w) = None ->
    Turn msg w
      (Throws danglingReference
         {| heap := heap2; session := session w; env := env2;
            trace := trace w
                     ++ [CollectFiles (srcDir (session w));
                         Interact (_state (session w))
                           (actionFor (session w) files msg)] |})
| advances files env1 resp heap2 env2 next cur :
    collectFiles (srcDir (session w)) (env w) = (inr files, env1) ->
    interact (_state (session w)) (actionFor (session w) files msg) (heap w) env1
    = (inr resp, heap2, env2) ->
    nextState resp = Some next ->
    heap2 !! _state (session w) = Some cur ->
    Turn msg w
      (Returns (interactions resp)
         {| heap := alter (withApproach (st_approach cur)) next
                      (alter withCancelledToken (_state (session w)) heap2);
            session := {| _state := next; task := task (session w);
                          approach := st_approach cur;
                          config := config (session w);
                          addToChat := addToChat (session w) |};
            env := env2;
            trace := trace w
                     ++ [CollectFiles (srcDir (session w));
                         Interact (_state (session w))
                           (actionFor (session w) files msg);
                         Cancel (_state (session w));
                         Install next] |}).

(** *** The cancellation discipline, as a check on a trace

    Walking the trace with the address of the state that is current and
    with whether its token has been cancelled since it became current:
    every [Install] but the first has to come after a [Cancel] of the
    state it replaces. *)
Fixpoint cancelsBeforeInstallFrom (cur : option loc) (cancelled : bool)
    (evs : list Event) : bool :=
  match evs with
  | [] => true
  | Cancel l :: rest =>
      cancelsBeforeInstallFrom cur
        (cancelled || bool_decide (cur = Some l)) rest
  | Install next :: rest =>
      (cancelled || bool_decide (cur = None))
      && cancelsBeforeInstallFrom (Some next) false rest
  | _ :: rest => cancelsBeforeInstallFrom cur cancelled rest
  end.

Definition cancelsBeforeInstall (evs : list Event) : bool :=
  cancelsBeforeInstallFrom None false evs.

Definition isInteract (ev : Event) : bool :=
  match ev with Interact _ _ => true | _ => false end.

Definition touchesState (ev : Event) : bool :=
  match ev with Cancel _ | Install _ => true | _ => false end.

End Methods.

End Weaverbird.

(** ** The diff model of the transformation results *)

Module Diff.

(** The marker that a unified diff puts where a section has no file. *)
Definition noFile : string := "/dev/null".

Inductive Line :=
| ContextLine (text : string)
| AddedLine (text : string)
| RemovedLine (text : string).

Record Range := { firstLine : nat; lineCount : nat }.

Record Hunk := {
  oldRange : Range;
  newRange : Range;
  lines : list Line;
}.

(** One file section of a patch: the paths of its header and its hunks. *)
Record FileSection := {
  beforePath : string;
  afterPath : string;
  hunks : list Hunk;
}.

(** A change node carries the relative path, the path resolved against the
    workspace root, and the hunks. *)
Inductive ChangeNode :=
| AddedChangeNode (relativePath absolutePath : string) (hs : list Hunk)
| ModifiedChangeNode (relativePath absolutePath : string) (hs : list Hunk)
| DeletedChangeNode (relativePath absolutePath : string) (hs : list Hunk).

Record DiffModel := { changes : list ChangeNode }.

Definition emptyModel : DiffModel := {| changes := [] |}.

Definition isAdded (n : ChangeNode) : bool :=
  match n with AddedChangeNode _ _ _ => true | _ => false end.

Section Parse.

(** The workspace boundary, an existence check by path, and the patch
    documents on disk, each seen as the file sections it holds. *)
Variable existsSync : string -> bool.
Variable readPatch : string -> list FileSection.

(** Modelled from the spec: path resolution of [DiffModel], which is not
    among the sources. A path of the patch is taken relative to the
    workspace root and joined to it, with nothing else done to it. *)
Definition resolve (workspaceRoot relativePath : string) : string :=
  workspaceRoot ++ "/" ++ relativePath.

(** Modelled from the spec: the file a section is about, for [DiffModel],
    which is not among the sources: the file the section leads to, or,
    for a section that leads to no file, the file it starts from. *)
Definition targetPath (sec : FileSection) : string :=
  if String.eqb (afterPath sec) noFile then beforePath sec else afterPath sec.

(** Modelled from the spec: the classification policy of
    [DiffModel.parseDiff], which is not among the sources. A section whose
    "before" path is the no-file marker is added; one whose "after" path
    is the marker is deleted; any other is modified, unless its target
    does not exist under the workspace root, in which case it is added. *)
Definition classify (workspaceRoot : string) (sec : FileSection) : ChangeNode :=
  let rel := targetPath sec in
  let abs := resolve workspaceRoot rel in
  if String.eqb (beforePath sec) noFile then
    AddedChangeNode rel abs (hunks sec)
  else if String.eqb (afterPath sec) noFile then
    DeletedChangeNode rel abs (hunks sec)
  else if existsSync abs then
    ModifiedChangeNode rel abs (hunks sec)
  else
    AddedChangeNode rel abs (hunks sec).

(** Modelled from the spec: [DiffModel.parseDiff], which is not among the
    sources. The change sequence is replaced by one node per file section
    of the patch, in the order of the patch. *)
Definition parseDiff (patchPath workspaceRoot : string) (m : DiffModel) : DiffModel :=
  {| changes := map (classify workspaceRoot) (readPatch patchPath) |}.

End Parse.

End Diff.

(** ** Concrete surroundings, for running the model *)

Module Scenario.

Import Archive.

(** A fragment of [n] bytes. *)
Definition fragment (n : nat) (b : Byte.byte) : Bytes := repeat b n.

Definition payloadChunk (bs : Bytes) : Chunk :=
  {| binaryPayloadEvent := Some {| bytes := Some bs |}; otherEvent := None |}.

Definition otherChunk (kind : string) : Chunk :=
  {| binaryPayloadEvent := None; otherEvent := Some kind |}.

(** A binary-payload event that has no [bytes]. *)
Definition hollowChunk : Chunk :=
  {| binaryPayloadEvent := Some {| bytes := None |}; otherEvent := None |}.

Definition idleHost : Host :=
  {| files := ∅; emitted := []; now := 1000;
     sessionId := "session-1"; jobId := "job-1" |}.

Definition elapsed (start current : Z) : Z := (current - start)%Z.

(** A client that answers every request with the given response. *)
Definition answering (r : Response) : unit -> Js.Thrown + Response :=
  fun _ => inr r.

(** Three chunks: ten bytes, an event of another kind, five bytes. *)
Definition threeChunks : Response :=
  {| body := Some {| chunks := [ payloadChunk (fragment 10 x41);
                                 otherChunk "internalServerException";
                                 payloadChunk (fragment 5 x42) ];
                     readFailure := None |};
     requestId := Some "req-1" |}.

Definition noBody : Response := {| body := None; requestId := Some "req-2" |}.

Definition emptyBody : Response :=
  {| body := Some {| chunks := []; readFailure := None |};
     requestId := Some "req-3" |}.

Import Weaverbird.

(** What the scripted backend does when a state is asked to interact. *)
Inductive Reply :=
| Fails (e : Js.Thrown)
    (* the handler throws *)
| Stays (newApproach : option string) (cid : option string) (out : list Interaction)
    (* the state stores an approach and a conversation id in itself and
       signals no transition *)
| Advances (newApproach : option string) (cid : option string) (out : list Interaction).
    (* the state stores an approach in itself and signals a transition to a
       new state object that holds the conversation id *)

Record Backend := {
  collectFailure : option Js.Thrown;
  replies : list Reply;
}.

#[export] Instance plain : Platform := {|
  Client := unit;
  LlmConfig := unit;
  BackendConfig := unit;
  FileSystem := unit;
  AddToChat := unit;
  Files := list string;
  Env := Backend;
|}.

Definition storeIn (this : loc) (newApproach : option string) (cid : option string)
    (h : gmap loc SessionState) : gmap loc SessionState :=
  alter (fun o => {| classOf := classOf o; stateConfig := stateConfig o;
                     conversationId := cid;
                     st_approach := default (st_approach o) newApproach;
                     tokenSource := tokenSource o |}) this h.

Definition scripted (this : loc) (action : SessionStateAction)
    (h : gmap loc SessionState) (b : Backend)
    : (Js.Thrown + SessionStateInteraction) * gmap loc SessionState * Backend :=
  match replies b with
  | [] => (inr {| nextState := None; interactions := [] |}, h, b)
  | r :: rest =>
      let b' := {| collectFailure := collectFailure b; replies := rest |} in
      match r with
      | Fails e => (inl e, h, b')
      | Stays a cid out =>
          (inr {| nextState := None; interactions := out |},
           storeIn this a cid h, b')
      | Advances a cid out =>
          let h1 := storeIn this a (h !! this ≫= conversationId) h in
          let l := fresh (dom h1) in
          let next :=
            {| classOf := OtherStateClass "RefinementIterationState";
               stateConfig :=
                 {| cfg_client := tt; cfg_llmConfig := tt;
                    cfg_workspaceRoot := "";
                    cfg_backendConfig := tt; cfg_conversationId := cid |};
               conversationId := cid; st_approach := "";
               tokenSource := {| isCancellationRequested := false |} |} in
          (inr {| nextState := Some l; interactions := out |},
           <[l := next]> h1, b')
      end
  end.

Definition throttled : Js.Thrown :=
  {| Js.className := "ThrottlingException";
     Js.code := Js.JString "ThrottlingException";
     Js.statusCode := Js.JNumber "429";
     Js.message := Js.JString "Rate exceeded" |}.

#[export] Instance scriptedCollaborators : Collaborators := {|
  path_join := fun a b => a ++ "/" ++ b;
  collectFiles := fun dir b =>
    match collectFailure b with
    | Some e => (inl e, b)
    | None => (inr [dir ++ "/index.ts"], b)
    end;
  interact := scripted;
  ConversationIdNotFoundError :=
    {| Js.className := "ConversationIdNotFoundError";
       Js.code := Js.undefined; Js.statusCode := Js.undefined;
       Js.message := Js.JString "Conversation id must exist before starting code generation" |};
|}.

Definition sessionConfig : SessionConfig :=
  {| client := tt; llmConfig := tt; workspaceRoot := "/ws";
     backendConfig := tt; fs := tt |}.

(** [new Session(...)] in an empty store, against a scripted backend. *)
Definition fresh_session (b : Backend) : World :=
  newSession sessionConfig tt ∅ b.

Definition note (text : string) : Interaction :=
  {| origin := ai; type := "message"; content := text |}.

(** A backend that answers nothing and changes nothing. *)
Definition quiet : Backend := {| collectFailure := None; replies := [] |}.

(** A backend whose first answer makes the refinement state store the
    approach "plan" and the conversation id "c1" in itself, without
    asking for a transition. *)
Definition planning : Backend :=
  {| collectFailure := None;
     replies := [Stays (Some "plan") (Some "c1") [note "plan"]] |}.

(** A backend whose first answer comes with a transition. *)
Definition advancing : Backend :=
  {| collectFailure := None;
     replies := [Advances (Some "plan") (Some "c1") [note "plan"]] |}.

(** A workspace whose files cannot be collected. *)
Definition unreadable : Backend :=
  {| collectFailure := Some throttled; replies := [] |}.

(** The session after its first turn against the [planning] backend. *)
Definition planned : World := (send "add a cache" (fresh_session planning)).2.

Import Diff.

Definition nothingExists : string -> bool := fun _ => false.

(** A patch with one section that removes the file [old.txt]. *)
Definition removal : FileSection :=
  {| beforePath := "old.txt"; afterPath := noFile;
     hunks := [ {| oldRange := {| firstLine := 1; lineCount := 1 |};
                   newRange := {| firstLine := 0; lineCount := 0 |};
                   lines := [RemovedLine "gone"] |} ] |}.

(** A patch with one section that changes [README.md]. *)
Definition change : FileSection :=
  {| beforePath := "README.md"; afterPath := "README.md";
     hunks := [ {| oldRange := {| firstLine := 1; lineCount := 1 |};
                   newRange := {| firstLine := 1; lineCount := 1 |};
                   lines := [RemovedLine "old"; AddedLine "new"] |} ] |}.

Definition onDisk (sections : list FileSection) : string -> list FileSection :=
  fun _ => sections.

End Scenario.

(** ** Notions and surroundings for the further properties *)

Module Further.

Import Archive.

(** A client that answers every request with a body of the given chunks. *)
Definition streaming {Args : Type} (rid : option string) (failure : option Js.Thrown)
    (cs : list Chunk) : Args -> Js.Thrown + Response :=
  fun _ => inr {| body := Some {| chunks := cs; readFailure := failure |};
                  requestId := rid |}.

(** A chunk that adds at least one byte to the buffer. *)
Definition carriesBytes (c : Chunk) : bool :=
  match payloadOf c with
  | [] => false
  | _ :: _ => true
  end.

Import Weaverbird.

Definition isCollect `{Platform} (ev : Event) : bool :=
  match ev with CollectFiles _ => true | _ => false end.

Definition isInstall `{Platform} (ev : Event) : bool :=
  match ev with Install _ => true | _ => false end.

Import Scenario.

(** Collaborators whose handler stores the approach "again" in its state and
    names that same state as the next one. *)
Definition selfNaming : Collaborators := {|
  path_join := fun a b => a ++ "/" ++ b;
  collectFiles := fun dir b => (inr [dir], b);
  interact := fun this action h b =>
    (inr {| nextState := Some this; interactions := [note "again"] |},
     storeIn this (Some "again") (h !! this ≫= conversationId) h, b);
  ConversationIdNotFoundError :=
    {| Js.className := "ConversationIdNotFoundError";
       Js.code := Js.undefined; Js.statusCode := Js.undefined;
       Js.message := Js.undefined |};
|}.

(** A backend whose handler rejects with no reason: the value thrown is
    [undefined]. *)
Definition rejecting : Backend :=
  {| collectFailure := None; replies := [Fails (Js.Primitive Js.undefined)] |}.

(** The session of [planned], in a workspace that can no longer be read. *)
Definition plannedUnreadable : World :=
  {| heap := heap planned; session := session planned;
     env := unreadable; trace := trace planned |}.

Import Diff.

(** Modelled from the spec: a second reading of the classification policy
    of [DiffModel.parseDiff], which is not among the sources. The spec also
    says that a deleted node is for a file that existed and that a section
    whose target does not exist under the workspace root is added whatever
    its header hints. Read that way, existence is tested first and the
    header is consulted only for a target that exists. *)
Definition classifyByExistence (existsSync : string -> bool)
    (workspaceRoot : string) (sec : FileSection) : ChangeNode :=
  let rel := targetPath sec in
  let abs := resolve workspaceRoot rel in
  if negb (existsSync abs) then
    AddedChangeNode rel abs (hunks sec)
  else if String.eqb (beforePath sec) noFile then
    AddedChangeNode rel abs (hunks sec)
  else if String.eqb (afterPath sec) noFile then
    DeletedChangeNode rel abs (hunks sec)
  else
    ModifiedChangeNode rel abs (hunks sec).

End Further.

(* ===================================================================== *)
(** * Part II.  Properties                                                *)
(* ===================================================================== *)

Open Scope list_scope.

(** ** Result archive retrieval *)

Module ArchiveSpec.

Import Archive.

(** The loop keeps the fragments in arrival order and counts their bytes. *)
Lemma consume_from (cs : list Chunk) (a : Acc) :
  concat (buffer (consume cs a)) = concat (buffer a) ++ payloads cs
  /\ totalDownloadBytes (consume cs a) = totalDownloadBytes a + length (payloads cs).
Proof.
  revert a. induction cs as [|c cs IH]; intros a.
  - unfold payloads. simpl. rewrite app_nil_r. split; [reflexivity | lia].
  - change (consume (c :: cs) a) with (consume cs (step a c)).
    destruct (IH (step a c)) as [Hb Ht]. rewrite Hb, Ht.
    unfold payloads. simpl. fold (payloads cs).
    unfold step, payloadOf.
    destruct (binaryPayloadEvent c) as [ev|]; simpl.
    + destruct (bytes ev) as [bs|]; simpl.
      * rewrite concat_app. simpl. rewrite app_nil_r, <- app_assoc.
        rewrite !length_app. split; [reflexivity | lia].
      * split; reflexivity.
    + split; reflexivity.
Qed.

Lemma consume_all (cs : list Chunk) :
  Buffer_concat (buffer (consume cs acc0)) = payloads cs
  /\ totalDownloadBytes (consume cs acc0) = length (payloads cs).
Proof.
  destruct (consume_from cs acc0) as [Hb Ht]. unfold Buffer_concat.
  rewrite Hb, Ht. simpl. split; reflexivity.
Qed.

Section Download.
Context {Args : Type}.
Variable calculateTotalLatency : Z -> Z -> Z.
Variable cwStreamingClient : Args -> Js.Thrown + Response.
Variable exportResultArchiveArgs : Args.
Variable toPath : string.
Variable h : Host.

Local Abbreviation download :=
  (downloadExportResultArchive calculateTotalLatency cwStreamingClient
     exportResultArchiveArgs toPath h).

(** C3. When the response has a body whose chunks are all read, the call
    completes, the file at the destination holds the binary-payload
    fragments concatenated in arrival order (chunks of other kinds add
    nothing), and the byte count reported to telemetry is the length of
    that file. *)
Theorem download_persists_payloads (result : Response) (b : Body) :
  cwStreamingClient exportResultArchiveArgs = inr result ->
  body result = Some b ->
  readFailure b = None ->
  exists h' ev,
    download = Completed h'
    /\ files h' !! toPath = Some (payloads (chunks b))
    /\ emitted h' = emitted h ++ [ev]
    /\ codeTransformTotalByteSize ev = length (payloads (chunks b)).
Proof.
  intros Hreq Hbody Hread.
  unfold downloadExportResultArchive. rewrite Hreq, Hbody, Hread.
  destruct (consume_all (chunks b)) as [Hb Ht].
  eexists _, _. split; [reflexivity |]. simpl.
  rewrite lookup_insert_eq, Hb, Ht. repeat split; reflexivity.
Qed.

(** C4. The call fails with the empty-response error exactly when the
    request was answered without a body; it then leaves the surroundings,
    the destination path included, as they were. A body that yields no
    chunk is no error: the call completes and the file is empty. *)
Theorem empty_response_iff_no_body :
  ((exists h', download = Failed (ToolkitError emptyResponse) h')
   <-> exists result,
         cwStreamingClient exportResultArchiveArgs = inr result
         /\ body result = None)
  /\ (forall f h', download = Failed f h' -> h' = h)
  /\ (forall result,
        cwStreamingClient exportResultArchiveArgs = inr result ->
        body result = Some {| chunks := []; readFailure := None |} ->
        exists h', download = Completed h' /\ files h' !! toPath = Some []).
Proof.
  unfold downloadExportResultArchive. repeat split.
  - intros [h' Hf].
    destruct (cwStreamingClient exportResultArchiveArgs) as [e|result];
      [discriminate|].
    exists result. split; [reflexivity|].
    destruct (body result) as [b|]; [|reflexivity].
    destruct (readFailure b); discriminate.
  - intros (result & Hreq & Hbody). rewrite Hreq, Hbody. eauto.
  - intros f h' Hf.
    destruct (cwStreamingClient exportResultArchiveArgs) as [e|result];
      [congruence|].
    destruct (body result) as [b|]; [|congruence].
    destruct (readFailure b); [congruence | discriminate].
  - intros result Hreq Hbody. rewrite Hreq, Hbody. simpl.
    eexists. split; [reflexivity|]. simpl. apply lookup_insert_eq.
Qed.

(** C10. A binary-payload event without [bytes] is skipped: the call ends
    as it ends on the stream without that chunk (same file, same reported
    byte count, same failure if any), and when the stream is read to its
    end the call completes. *)
Theorem payload_without_bytes_is_skipped
    (pre post : list Chunk) (c : Chunk) (ev : BinaryPayloadEvent)
    (failure : option Js.Thrown) (rid : option string) :
  binaryPayloadEvent c = Some ev ->
  bytes ev = None ->
  let streaming (cs : list Chunk) : Args -> Js.Thrown + Response :=
    fun _ => inr {| body := Some {| chunks := cs; readFailure := failure |};
                    requestId := rid |} in
  downloadExportResultArchive calculateTotalLatency (streaming (pre ++ c :: post))
    exportResultArchiveArgs toPath h
  = downloadExportResultArchive calculateTotalLatency (streaming (pre ++ post))
      exportResultArchiveArgs toPath h
  /\ payloadOf c = []
  /\ (failure = None ->
      exists h', downloadExportResultArchive calculateTotalLatency
                   (streaming (pre ++ c :: post)) exportResultArchiveArgs toPath h
                 = Completed h').
Proof.
  intros Hev Hbytes streaming.
  assert (Hstep : forall a, step a c = a).
  { intros a. unfold step. rewrite Hev, Hbytes. reflexivity. }
  assert (Hsame : consume (pre ++ c :: post) acc0 = consume (pre ++ post) acc0).
  { unfold consume. rewrite !fold_left_app. simpl. rewrite Hstep. reflexivity. }
  repeat split.
  - unfold downloadExportResultArchive, streaming. simpl. rewrite Hsame.
    reflexivity.
  - unfold payloadOf. rewrite Hev, Hbytes. reflexivity.
  - intros ->. unfold downloadExportResultArchive, streaming. simpl. eauto.
Qed.

End Download.

Import Scenario.

(** The scenario of three chunks: ten bytes, an event of another kind, five
    bytes; the file holds fifteen bytes and fifteen are reported. *)
Lemma download_persists_payloads_witness :
  answering threeChunks tt = inr threeChunks
  /\ exists h' ev,
       downloadExportResultArchive elapsed (answering threeChunks) tt
         "archive.zip" idleHost = Completed h'
       /\ files h' !! "archive.zip"
          = Some (fragment 10 x41 ++ fragment 5 x42)
       /\ emitted h' = [ev]
       /\ codeTransformTotalByteSize ev = 15.
Proof.
  split; [reflexivity|].
  destruct (download_persists_payloads elapsed (answering threeChunks) tt
              "archive.zip" idleHost threeChunks
              {| chunks := [ payloadChunk (fragment 10 x41);
                             otherChunk "internalServerException";
                             payloadChunk (fragment 5 x42) ];
                 readFailure := None |}
              eq_refl eq_refl eq_refl)
    as (h' & ev & Hrun & Hfile & Hemit & Hsize).
  exists h', ev. repeat split; assumption.
Defined.

(** A response without a body fails; a response whose body yields nothing
    writes an empty file. *)
Lemma empty_response_iff_no_body_witness :
  (exists h', downloadExportResultArchive elapsed (answering noBody) tt
                "archive.zip" idleHost
              = Failed (ToolkitError emptyResponse) h')
  /\ exists h', downloadExportResultArchive elapsed (answering emptyBody) tt
                  "archive.zip" idleHost = Completed h'
                /\ files h' !! "archive.zip" = Some [].
Proof.
  split.
  - apply (proj1 (empty_response_iff_no_body elapsed (answering noBody) tt
                    "archive.zip" idleHost)).
    exists noBody. split; reflexivity.
  - apply (proj2 (proj2 (empty_response_iff_no_body elapsed (answering emptyBody)
                           tt "archive.zip" idleHost)) emptyBody);
      reflexivity.
Defined.

(** A stream with a hollow chunk between two fragments is read to its end. *)
Lemma payload_without_bytes_is_skipped_witness :
  binaryPayloadEvent hollowChunk = Some {| bytes := None |}
  /\ exists h',
       downloadExportResultArchive elapsed
         (fun _ => inr {| body := Some {| chunks := [payloadChunk (fragment 2 x41)]
                                                   ++ hollowChunk
                                                   :: [payloadChunk (fragment 1 x42)];
                                          readFailure := None |};
                          requestId := None |})
         tt "archive.zip" idleHost = Completed h'.
Proof.
  split; [reflexivity|].
  apply (proj2 (proj2 (payload_without_bytes_is_skipped elapsed tt "archive.zip"
                         idleHost [payloadChunk (fragment 2 x41)]
                         [payloadChunk (fragment 1 x42)] hollowChunk
                         {| bytes := None |} None None eq_refl eq_refl))).
  reflexivity.
Defined.

End ArchiveSpec.

(** ** The conversation session *)

Module SessionSpec.

Import Weaverbird.
Local Open Scope session_scope.

Ltac run :=
  unfold startCodegen, sendUnsafe, nextInteraction, callCollectFiles,
    callInteract, cancelToken, setState, setTask, setApproach, putSession,
    getSession, log, new, update, state, bind, ret, throw, srcDir, actionFor in *;
  simpl in *.

Ltac flatten_trace := repeat (rewrite <- app_assoc; simpl).

Section Session.
Context {P : Platform} {C : Collaborators}.

Lemma nextInteraction_turn (msg : option string) (w : World) :
  Turn msg w (nextInteraction msg w).
Proof.
  destruct (collectFiles (srcDir (session w)) (env w)) as [[e|files] env1] eqn:Hc.
  - generalize (collect_throws msg w e env1 Hc). run. rewrite Hc. trivial.
  - destruct (interact (_state (session w)) (actionFor (session w) files msg)
                (heap w) env1) as [[[e|resp] heap2] env2] eqn:Hi.
    + generalize (interact_throws msg w files env1 e heap2 env2 Hc Hi).
      run. rewrite Hc. simpl. rewrite Hi. simpl. flatten_trace. trivial.
    + destruct (nextState resp) as [next|] eqn:Hn.
      * destruct (heap2 !! _state (session w)) as [cur|] eqn:Hcur.
        -- generalize (advances msg w files env1 resp heap2 env2 next cur
                         Hc Hi Hn Hcur).
           run. rewrite Hc. simpl. rewrite Hi. simpl. rewrite Hn. simpl.
           rewrite Hcur. flatten_trace. trivial.
        -- generalize (current_missing msg w files env1 resp heap2 env2 next
                         Hc Hi Hn Hcur).
           run. rewrite Hc. simpl. rewrite Hi. simpl. rewrite Hn. simpl.
           rewrite Hcur. flatten_trace. trivial.
      * generalize (stays msg w files env1 resp heap2 env2 Hc Hi Hn).
        run. rewrite Hc. simpl. rewrite Hi. simpl. rewrite Hn. simpl.
        flatten_trace. trivial.
Qed.

(** *** The two branches of [sendUnsafe] *)

Lemma sendUnsafe_clear (w : World) :
  sendUnsafe "CLEAR" w
  = Returns [ {| origin := ai; type := "message"; content := finished |} ]
      {| heap := <[fresh (dom (heap w))
                   := RefinementState (getSessionStateConfig (session w)) ""]>
                   (heap w);
         session := {| _state := fresh (dom (heap w)); task := "";
                       approach := "";
                       config := config (session w);
                       addToChat := addToChat (session w) |};
         env := env w;
         trace := trace w ++ [Install (fresh (dom (heap w)))] |}.
Proof. reflexivity. Qed.

Lemma sendUnsafe_message (msg : string) (w : World) :
  msg <> "CLEAR" ->
  sendUnsafe msg w
  = nextInteraction (Some msg) (withTask (taskAfter (session w) msg) w).
Proof.
  intros Hmsg. apply String.eqb_neq in Hmsg.
  unfold sendUnsafe, bind, getSession. rewrite Hmsg.
  unfold taskAfter, withTask.
  destruct (String.eqb (task (session w)) "") eqn:Ht.
  - reflexivity.
  - unfold ret. destruct w as [h [st t a c ch] e tr]. reflexivity.
Qed.

Lemma startCodegen_run (w : World) (cur : SessionState) :
  heap w !! _state (session w) = Some cur ->
  Js.truthy (conversationId cur) = true ->
  startCodegen w
  = (_ <- nextInteraction None ;; ret tt) (codeGenInstalled w cur).
Proof.
  intros Hcur Hcid. unfold startCodegen, bind at 1, state.
  rewrite Hcur, Hcid. reflexivity.
Qed.

(** A turn leaves the task alone, and leaves [_state] and the approach
    alone unless it ends in a transition. *)
Lemma turn_task (msg : option string) (w : World) (o : Outcome (list Interaction)) :
  Turn msg w o -> task (session (worldOf o)) = task (session w).
Proof. intros []; reflexivity. Qed.

Lemma turn_throws (msg : option string) (w : World) (e : Js.Thrown) (w' : World) :
  Turn msg w (Throws e w') ->
  session w' = session w
  /\ exists evs, trace w' = trace w ++ evs
                 /\ forallb (fun ev => negb (touchesState ev)) evs = true.
Proof.
  intros HT. inversion HT; subst; simpl; (split; [reflexivity|]);
    eexists; (split; [reflexivity|]); reflexivity.
Qed.

(** The events of a turn that returns: the files are collected, the
    current state interacts once, and a transition cancels before it
    installs. *)
Lemma turn_returns (msg : option string) (w : World) (out : list Interaction)
    (w' : World) :
  Turn msg w (Returns out w') ->
  exists files evs,
    trace w' = trace w
               ++ [CollectFiles (srcDir (session w));
                   Interact (_state (session w)) (actionFor (session w) files msg)]
               ++ evs
    /\ forallb (fun ev => negb (isInteract ev)) evs = true
    /\ cancelsBeforeInstallFrom (Some (_state (session w))) false evs = true.
Proof.
  intros HT. inversion HT; subst; simpl.
  - exists files, []. auto.
  - exists files, [Cancel (_state (session w)); Install next]. simpl.
    rewrite bool_decide_eq_true_2 by reflexivity. auto.
Qed.

(** Handler-signalled transitions keep the discipline: whatever the
    handler answers, the events of one interaction step cancel the
    current state before they install another. *)
Lemma transition_cancels_before_install (msg : option string) (w : World) :
  exists evs,
    trace (worldOf (nextInteraction msg w)) = trace w ++ evs
    /\ cancelsBeforeInstallFrom (Some (_state (session w))) false evs = true.
Proof.
  destruct (nextInteraction_turn msg w); simpl;
    eexists; (split; [reflexivity|]); simpl;
    rewrite ?bool_decide_eq_true_2 by reflexivity; reflexivity.
Qed.

(** *** The entry points *)

(** The world [send] leaves is the world its inner step leaves, whatever
    the [catch] clause does with the thrown value. *)
Lemma send_world (msg : string) (w : World) :
  (send msg w).2 = worldOf (sendUnsafe msg w).
Proof. unfold send. destruct (sendUnsafe msg w); reflexivity. Qed.

(** The [catch] clause, by the value thrown: the read of [e.code] throws on
    [undefined] and [null]; any other value gives one interaction, from the
    assistant, of type message, whose text holds the three properties. *)
Lemma catchClause_by_value (e : Js.Thrown) :
  match e with
  | Js.Primitive Js.undefined =>
      catchClause e = inl (Js.cannotRead Js.undefined "code")
  | Js.Primitive Js.null =>
      catchClause e = inl (Js.cannotRead Js.null "code")
  | Js.Primitive _ =>
      catchClause e = inr [failureNotice Js.undefined Js.undefined Js.undefined]
  | Js.Object o =>
      catchClause e
      = inr [failureNotice (Js.code o) (Js.statusCode o) (Js.message o)]
  end.
Proof. destruct e as [[| | | |]|o]; reflexivity. Qed.

(** C6. With no conversation id on the current state, [startCodegen]
    throws [ConversationIdNotFoundError] and leaves everything as it
    was: the current state, the task, the approach, the store. *)
Theorem startCodegen_needs_conversation_id (w : World) (cur : SessionState) :
  heap w !! _state (session w) = Some cur ->
  Js.truthy (conversationId cur) = false ->
  startCodegen w = Throws ConversationIdNotFoundError w.
Proof.
  intros Hcur Hcid. unfold startCodegen, bind, state, throw.
  rewrite Hcur, Hcid. reflexivity.
Qed.

(** C5, amended. When [startCodegen] returns, the [CodeGenState] it
    installed holds the conversation id of the state that was current and
    the approach stored in the session itself, which is the approach of
    that state whenever the two agree; one interaction step follows, with
    no message, on the state just installed. *)
Theorem startCodegen_seeds_from_session (w w' : World) :
  startCodegen w = Returns tt w' ->
  exists cur files out evs,
    heap w !! _state (session w) = Some cur
    /\ Js.truthy (conversationId cur) = true
    /\ (let w1 := codeGenInstalled w cur in
        let installed := seededCodeGen (session w) cur in
        heap w1 !! _state (session w1) = Some installed
        /\ classOf installed = CodeGenStateClass
        /\ conversationId installed = conversationId cur
        /\ st_approach installed = approach (session w)
        /\ (approach (session w) = st_approach cur ->
            st_approach installed = st_approach cur)
        /\ nextInteraction None w1 = Returns out w'
        /\ trace w'
           = trace w
             ++ [Install (_state (session w1));
                 CollectFiles (srcDir (session w));
                 Interact (_state (session w1))
                   (actionFor (session w) files None)]
             ++ evs
        /\ forallb (fun ev => negb (isInteract ev)) evs = true).
Proof.
  intros Hrun.
  destruct (heap w !! _state (session w)) as [cur|] eqn:Hcur.
  2: { unfold startCodegen, bind, state in Hrun. rewrite Hcur in Hrun.
       discriminate. }
  destruct (Js.truthy (conversationId cur)) eqn:Hcid.
  2: { unfold startCodegen, bind, state in Hrun. rewrite Hcur, Hcid in Hrun.
       discriminate. }
  rewrite (startCodegen_run w cur Hcur Hcid) in Hrun.
  unfold bind in Hrun.
  pose proof (nextInteraction_turn None (codeGenInstalled w cur)) as HT.
  destruct (nextInteraction None (codeGenInstalled w cur)) as [out w2|e w2] eqn:Hn;
    [|discriminate].
  unfold ret in Hrun. injection Hrun as <-.
  destruct (turn_returns _ _ _ _ HT) as (files & evs & Htr & Hone & _).
  exists cur, files, out, evs. split; [reflexivity|]. split; [assumption|].
  cbv zeta.
  split; [simpl; apply lookup_insert_eq|].
  split; [reflexivity|]. split; [reflexivity|]. split; [reflexivity|].
  split; [auto|]. split; [assumption|]. split; [|assumption].
  rewrite Htr. simpl. rewrite <- app_assoc. reflexivity.
Qed.

(** C7, amended. When the inner step throws, [send] leaves the current
    state and the approach of the session as they were; the task is as
    it was unless it was unset, in which case it is now the message. The
    session replaced no state and cancelled no token on the way. *)
Theorem failed_turn_keeps_state_and_approach
    (msg : string) (w : World) (e : Js.Thrown) (w' : World) :
  sendUnsafe msg w = Throws e w' ->
  send msg w = (catchClause e, w')
  /\ _state (session w') = _state (session w)
  /\ approach (session w') = approach (session w)
  /\ task (session w') = taskAfter (session w) msg
  /\ exists evs, trace w' = trace w ++ evs
                 /\ forallb (fun ev => negb (touchesState ev)) evs = true.
Proof.
  intros Hrun. split; [unfold send; rewrite Hrun; reflexivity|].
  destruct (String.eqb_spec msg "CLEAR") as [->|Hmsg].
  - rewrite sendUnsafe_clear in Hrun. discriminate.
  - rewrite (sendUnsafe_message msg w Hmsg) in Hrun.
    pose proof (nextInteraction_turn (Some msg)
                  (withTask (taskAfter (session w) msg) w)) as HT.
    rewrite Hrun in HT. destruct (turn_throws _ _ _ _ HT) as [Hs Htr].
    rewrite Hs. simpl. auto.
Qed.

(** What a message that is not the control message does to the task, and
    what it hands to the handler. *)
Lemma send_task (msg : string) (w : World) :
  msg <> "CLEAR" ->
  task (session (send msg w).2) = taskAfter (session w) msg.
Proof.
  intros Hmsg. rewrite send_world, (sendUnsafe_message msg w Hmsg).
  exact (turn_task _ _ _ (nextInteraction_turn (Some msg)
           (withTask (taskAfter (session w) msg) w))).
Qed.

Lemma send_forwards (msg : string) (w : World) (files : Files) (env1 : Env) :
  msg <> "CLEAR" ->
  collectFiles (srcDir (session w)) (env w) = (inr files, env1) ->
  exists evs,
    trace (send msg w).2
    = trace w
      ++ [CollectFiles (srcDir (session w));
          Interact (_state (session w))
            {| act_files := files; act_task := taskAfter (session w) msg;
               act_msg := Some msg; act_fs := fs (config (session w));
               act_addToChat := addToChat (session w) |}]
      ++ evs.
Proof.
  intros Hmsg Hc. rewrite send_world, (sendUnsafe_message msg w Hmsg).
  destruct (nextInteraction_turn (Some msg)
              (withTask (taskAfter (session w) msg) w)) as
    [e0 env0 Hc0 | files0 env0 e0 h2 env2 Hc0 _ | files0 env0 r h2 env2 Hc0 _ _
     | files0 env0 r h2 env2 nx Hc0 _ _ _ | files0 env0 r h2 env2 nx cur Hc0 _ _ _];
    simpl in Hc0; unfold srcDir in *; simpl in Hc0; rewrite Hc in Hc0;
    try discriminate; injection Hc0 as <- <-; simpl;
    eexists; unfold actionFor; simpl; rewrite <- ?app_assoc; simpl;
    reflexivity.
Qed.

Lemma sendAll_keeps_task (msgs : list string) (w : World) :
  Forall (fun m => m <> "CLEAR") msgs ->
  task (session w) <> "" ->
  task (session (sendAll msgs w)) = task (session w).
Proof.
  intros Hall. revert w. induction Hall as [|m rest Hm _ IH]; intros w Hset.
  - reflexivity.
  - simpl. rewrite IH; rewrite (send_task m w Hm); unfold taskAfter;
      apply String.eqb_neq in Hset; rewrite Hset; try reflexivity.
    apply String.eqb_neq. assumption.
Qed.

(** C8, amended. On a session whose task is unset, the first message
    that is neither empty nor the control message becomes the task, and
    every later message of a run without the control message leaves the
    task as it is; each of these messages is handed to the current
    state's handler as the message of its turn, together with the task,
    once the workspace files have been collected. *)
Theorem first_message_fixes_task (w : World) (first : string) (rest : list string) :
  task (session w) = "" ->
  first <> "" ->
  first <> "CLEAR" ->
  Forall (fun m => m <> "CLEAR") rest ->
  task (session (send first w).2) = first
  /\ (forall files env1,
        collectFiles (srcDir (session w)) (env w) = (inr files, env1) ->
        exists evs,
          trace (send first w).2
          = trace w
            ++ [CollectFiles (srcDir (session w));
                Interact (_state (session w))
                  {| act_files := files; act_task := first;
                     act_msg := Some first; act_fs := fs (config (session w));
                     act_addToChat := addToChat (session w) |}]
            ++ evs)
  /\ forall earlier msg later,
       rest = earlier ++ msg :: later ->
       let before := sendAll earlier (send first w).2 in
       task (session before) = first
       /\ task (session (send msg before).2) = first
       /\ forall files env1,
            collectFiles (srcDir (session before)) (env before) = (inr files, env1) ->
            exists evs,
              trace (send msg before).2
              = trace before
                ++ [CollectFiles (srcDir (session before));
                    Interact (_state (session before))
                      {| act_files := files; act_task := first;
                         act_msg := Some msg;
                         act_fs := fs (config (session before));
                         act_addToChat := addToChat (session before) |}]
                ++ evs.
Proof.
  intros Hunset Hne Hctl Hrest.
  assert (Hfirst : task (session (send first w).2) = first).
  { rewrite (send_task first w Hctl). unfold taskAfter. rewrite Hunset.
    reflexivity. }
  split; [assumption|]. split.
  - intros files env1 Hc.
    destruct (send_forwards first w files env1 Hctl Hc) as [evs Htr].
    exists evs. rewrite Htr. unfold taskAfter. rewrite Hunset. reflexivity.
  - intros earlier msg later -> before.
    apply Forall_app in Hrest as [Hearlier Hlater].
    apply Forall_cons in Hlater as [Hmsg _].
    assert (Hbefore : task (session before) = first).
    { unfold before. rewrite (sendAll_keeps_task earlier _ Hearlier);
        rewrite Hfirst; auto. }
    assert (Hkept : taskAfter (session before) msg = first).
    { unfold taskAfter. rewrite Hbefore.
      apply String.eqb_neq in Hne. rewrite Hne. reflexivity. }
    split; [assumption|]. split.
    + rewrite (send_task msg before Hmsg). assumption.
    + intros files env1 Hc.
      destruct (send_forwards msg before files env1 Hmsg Hc) as [evs Htr].
      exists evs. rewrite Htr, Hkept. reflexivity.
Qed.

(** *** The approach of the session and the approach of its state *)

(** After [new Session] and after the control message the two are the
    same (both empty). *)
Lemma approach_agrees_at_reset (w : World) :
  let w' := worldOf (sendUnsafe "CLEAR" w) in
  exists cur, heap w' !! _state (session w') = Some cur
              /\ st_approach cur = approach (session w').
Proof.
  rewrite sendUnsafe_clear. simpl. eexists. split.
  - apply lookup_insert_eq.
  - reflexivity.
Qed.

(** After a transition to a state that the store holds they are the same
    again: the approach read from the outgoing state. *)
Lemma approach_agrees_after_transition (msg : option string) (w w' : World)
    (out : list Interaction) :
  nextInteraction msg w = Returns out w' ->
  _state (session w') <> _state (session w) ->
  is_Some (heap w' !! _state (session w')) ->
  exists cur, heap w' !! _state (session w') = Some cur
              /\ st_approach cur = approach (session w').
Proof.
  intros Hrun Hmoved Hheld.
  pose proof (nextInteraction_turn msg w) as HT. rewrite Hrun in HT.
  inversion HT; subst; simpl in *; [congruence|].
  destruct Hheld as [o Ho]. rewrite lookup_alter_eq in Ho |- *.
  destruct (alter withCancelledToken (_state (session w)) heap2 !! next) as [o'|];
    [|discriminate].
  simpl. eauto.
Qed.

End Session.

(** *** The entry points at work *)

Import Scenario.

(** C2, on the code: [send] lets a failure through when the value thrown
    is [undefined] or [null]. The handler rejects with [undefined]; the
    [catch] clause reads [e.code] of it, and the [TypeError] of that read
    leaves [send]. A thrown error object, by contrast, is turned into the one
    interaction that describes it. *)
Theorem send_throws_on_rejection_without_reason :
  let w0 := fresh_session Further.rejecting in
  exists w',
    sendUnsafe "add a cache" w0 = Throws (Js.Primitive Js.undefined) w'
    /\ send "add a cache" w0 = (inl (Js.cannotRead Js.undefined "code"), w')
    /\ catchClause (Js.Primitive Js.null) = inl (Js.cannotRead Js.null "code")
    /\ catchClause throttled
       = inr [ {| origin := ai; type := "message";
                  content := "Received error: ThrottlingException and status code: 429 [Rate exceeded] when trying to send the request to the Weaverbird API" |} ].
Proof.
  cbv zeta. eexists.
  split; [vm_compute; reflexivity|].
  split; [vm_compute; reflexivity|].
  split; reflexivity.
Qed.

(** C1, on the code: the control message and [startCodegen] put a new
    state in place of the current one without cancelling its token. The
    trace of a new session keeps the discipline; after [send("CLEAR")] it
    does not, and the token of the state that was replaced is still not
    cancelled. The same holds for [startCodegen()] on a session whose
    refinement state has a conversation id. *)
Theorem clear_and_startCodegen_skip_cancel :
  let w0 := fresh_session quiet in
  let cleared := (send "CLEAR" w0).2 in
  cancelsBeforeInstall (trace w0) = true
  /\ _state (session w0) = 0
  /\ _state (session cleared) = 1
  /\ trace cleared = [Install 0; Install 1]
  /\ cancelsBeforeInstall (trace cleared) = false
  /\ (tokenSource <$> heap cleared !! 0)
     = Some {| isCancellationRequested := false |}
  /\ cancelsBeforeInstall (trace planned) = true
  /\ _state (session planned) = 0
  /\ exists generating,
       startCodegen planned = Returns tt generating
       /\ _state (session generating) = 1
       /\ filter (fun ev => touchesState ev = true) (trace generating)
          = [Install 0; Install 1]
       /\ cancelsBeforeInstall (trace generating) = false
       /\ (tokenSource <$> heap generating !! 0)
          = Some {| isCancellationRequested := false |}.
Proof.
  cbv zeta. repeat (split; [vm_compute; reflexivity|]).
  eexists. split; [vm_compute; reflexivity|].
  repeat split; vm_compute; reflexivity.
Qed.

(** A new session has a refinement state without a conversation id. *)
Lemma startCodegen_needs_conversation_id_witness :
  heap (fresh_session quiet) !! _state (session (fresh_session quiet))
  = Some (RefinementState (getSessionStateConfig (session (fresh_session quiet))) "")
  /\ startCodegen (fresh_session quiet)
     = Throws ConversationIdNotFoundError (fresh_session quiet).
Proof.
  split; [vm_compute; reflexivity|].
  apply (startCodegen_needs_conversation_id (fresh_session quiet)
           (RefinementState (getSessionStateConfig (session (fresh_session quiet))) ""));
    vm_compute; reflexivity.
Defined.

(** C5, as stated, fails: the refinement state holds the approach "plan"
    when [startCodegen] is called, and the [CodeGenState] that is installed
    holds the empty approach of the session. *)
Lemma startCodegen_approach_counterexample :
  exists cur generating installed,
    heap planned !! _state (session planned) = Some cur
    /\ classOf cur = RefinementStateClass
    /\ st_approach cur = "plan"
    /\ startCodegen planned = Returns tt generating
    /\ heap generating !! _state (session generating) = Some installed
    /\ classOf installed = CodeGenStateClass
    /\ st_approach installed = ""
    /\ st_approach installed <> st_approach cur.
Proof.
  eexists _, _, _.
  split; [vm_compute; reflexivity|].
  split; [reflexivity|]. split; [reflexivity|].
  split; [vm_compute; reflexivity|].
  split; [vm_compute; reflexivity|].
  split; [reflexivity|]. split; [reflexivity|].
  discriminate.
Qed.

(** [startCodegen] on the session that holds the conversation id "c1". *)
Lemma startCodegen_seeds_from_session_witness :
  exists generating cur,
    startCodegen planned = Returns tt generating
    /\ heap planned !! _state (session planned) = Some cur
    /\ conversationId (seededCodeGen (session planned) cur) = Some "c1"
    /\ st_approach (seededCodeGen (session planned) cur) = approach (session planned).
Proof.
  assert (Hrun : exists generating, startCodegen planned = Returns tt generating).
  { eexists. vm_compute. reflexivity. }
  destruct Hrun as [generating Hrun].
  destruct (startCodegen_seeds_from_session planned generating Hrun)
    as (cur & files & out & evs & Hcur & Hcid & Hheld & _ & Hconv & Happ & _).
  exists generating, cur. repeat split; try assumption.
  rewrite Hconv. revert Hcur. vm_compute. intros [= <-]. reflexivity.
Defined.

(** C7, as stated, fails: the task is unset before the call and set after
    it, though the turn failed. *)
Lemma failed_turn_changes_task :
  let w0 := fresh_session unreadable in
  exists w',
    sendUnsafe "add a cache" w0 = Throws throttled w'
    /\ send "add a cache" w0
       = (inr [failureNotice (Js.JString "ThrottlingException") (Js.JNumber "429")
                 (Js.JString "Rate exceeded")], w')
    /\ task (session w0) = ""
    /\ task (session w') = "add a cache"
    /\ task (session w') <> task (session w0).
Proof.
  cbv zeta. eexists.
  split; [vm_compute; reflexivity|].
  split; [vm_compute; reflexivity|].
  split; [reflexivity|]. split; [reflexivity|]. discriminate.
Qed.

(** A first turn that fails because the workspace cannot be read. *)
Lemma failed_turn_keeps_state_and_approach_witness :
  exists w',
    sendUnsafe "add a cache" (fresh_session unreadable) = Throws throttled w'
    /\ _state (session w') = _state (session (fresh_session unreadable))
    /\ approach (session w') = approach (session (fresh_session unreadable))
    /\ task (session w') = "add a cache".
Proof.
  assert (Hrun : exists w', sendUnsafe "add a cache" (fresh_session unreadable)
                            = Throws throttled w').
  { eexists. vm_compute. reflexivity. }
  destruct Hrun as [w' Hrun]. exists w'.
  destruct (failed_turn_keeps_state_and_approach "add a cache"
              (fresh_session unreadable) throttled w' Hrun)
    as (_ & Hstate & Happroach & Htask & _).
  repeat split; assumption.
Defined.

(** C8, as stated, fails twice. An empty first message leaves the task
    unset, so the message after it still changes the task; and a message
    does not reach the handler when the workspace files cannot be
    collected. *)
Lemma later_message_changes_task :
  let w0 := fresh_session quiet in
  let w1 := (send "" w0).2 in
  let w2 := (send "add a cache" w1).2 in
  task (session w1) = ""
  /\ task (session w2) = "add a cache"
  /\ task (session w2) <> task (session w1)
  /\ let v1 := (send "add a cache" (fresh_session unreadable)).2 in
     let v2 := (send "use redis" v1).2 in
     task (session v2) = "add a cache"
     /\ filter (fun ev => isInteract ev = true) (trace v2) = [].
Proof.
  cbv zeta. split; [vm_compute; reflexivity|].
  split; [vm_compute; reflexivity|].
  split; [vm_compute; discriminate|].
  split; vm_compute; reflexivity.
Qed.

(** Two messages on a new session: the first one stays the task. *)
Lemma first_message_fixes_task_witness :
  task (session (fresh_session quiet)) = ""
  /\ task (session (send "add a cache" (fresh_session quiet)).2) = "add a cache"
  /\ task (session (send "use redis"
                      (send "add a cache" (fresh_session quiet)).2).2)
     = "add a cache".
Proof.
  destruct (first_message_fixes_task (fresh_session quiet) "add a cache"
              ["use redis"] eq_refl) as (Hfirst & _ & Hlater).
  - discriminate.
  - discriminate.
  - repeat constructor. discriminate.
  - split; [reflexivity|]. split; [assumption|].
    destruct (Hlater [] "use redis" [] eq_refl) as (_ & Hkept & _).
    exact Hkept.
Defined.

End SessionSpec.

(** ** The diff model *)

Module DiffSpec.

Import Diff.

Lemma lookup_map {A B : Type} (f : A -> B) (l : list A) (i : nat) :
  map f l !! i = f <$> (l !! i).
Proof.
  revert i. induction l as [|x l IH]; intros [|i]; simpl; auto.
Qed.

Section Parse.
Variable existsSync : string -> bool.
Variable readPatch : string -> list FileSection.
Variables patchPath workspaceRoot : string.
Variable m : DiffModel.

Local Abbreviation parsed := (parseDiff existsSync readPatch patchPath workspaceRoot m).

(** Every file section gives one node, in the order of the patch. *)
Lemma parseDiff_length :
  length (changes parsed) = length (readPatch patchPath).
Proof. simpl. apply length_map. Qed.

(** A section whose header marks a deletion is a deleted node, whatever
    the workspace holds. *)
Lemma deletion_header_is_honoured (sec : FileSection) :
  beforePath sec <> noFile ->
  afterPath sec = noFile ->
  exists rel abs hs, classify existsSync workspaceRoot sec = DeletedChangeNode rel abs hs.
Proof.
  intros Hb Ha. unfold classify.
  apply String.eqb_neq in Hb. rewrite Hb.
  apply String.eqb_eq in Ha. rewrite Ha. eauto.
Qed.

(** Read with the header first, a file section whose header does not mark
    a deletion and whose target does not exist under the workspace root
    becomes an [AddedChangeNode]; and [changes] has one node per file
    section. *)
Lemma absent_target_is_added (i : nat) (sec : FileSection) :
  readPatch patchPath !! i = Some sec ->
  afterPath sec <> noFile ->
  existsSync (resolve workspaceRoot (targetPath sec)) = false ->
  changes parsed !! i
  = Some (AddedChangeNode (targetPath sec)
            (resolve workspaceRoot (targetPath sec)) (hunks sec))
  /\ length (changes parsed) = length (readPatch patchPath).
Proof.
  intros Hsec Hafter Habsent. split; [|apply parseDiff_length].
  simpl. rewrite lookup_map, Hsec. simpl. f_equal.
  unfold classify. apply String.eqb_neq in Hafter. rewrite Hafter, Habsent.
  destruct (String.eqb (beforePath sec) noFile); reflexivity.
Qed.

(** The two readings of the policy give the same node for every section
    but one kind: a section whose header marks a deletion and whose target
    does not exist. The header-first reading makes it a deleted node, the
    existence-first reading an added one. The spec does not say which of the
    two [DiffModel] follows, and its code is not among the sources. *)
Lemma readings_part_on_absent_deletions (sec : FileSection) :
  let rel := targetPath sec in
  let abs := resolve workspaceRoot rel in
  classify existsSync workspaceRoot sec
  = Further.classifyByExistence existsSync workspaceRoot sec
  \/ (beforePath sec <> noFile
      /\ afterPath sec = noFile
      /\ existsSync abs = false
      /\ classify existsSync workspaceRoot sec
         = DeletedChangeNode rel abs (hunks sec)
      /\ Further.classifyByExistence existsSync workspaceRoot sec
         = AddedChangeNode rel abs (hunks sec)).
Proof.
  cbv zeta. unfold classify, Further.classifyByExistence.
  destruct (String.eqb_spec (beforePath sec) noFile) as [Hb|Hb];
    destruct (String.eqb_spec (afterPath sec) noFile) as [Ha|Ha];
    destruct (existsSync (resolve workspaceRoot (targetPath sec))) eqn:He;
    simpl; auto.
  right. auto.
Qed.

End Parse.

End DiffSpec.


(** ** Result archive retrieval, further properties *)

Module ArchiveLaws.

Import Archive Further.

Lemma payloads_app (cs1 cs2 : list Chunk) :
  payloads (cs1 ++ cs2) = payloads cs1 ++ payloads cs2.
Proof. unfold payloads. rewrite map_app, concat_app. reflexivity. Qed.

Lemma payloads_filter (cs : list Chunk) :
  payloads (List.filter carriesBytes cs) = payloads cs.
Proof.
  unfold payloads. induction cs as [|c cs IH]; [reflexivity|].
  simpl. unfold carriesBytes at 1.
  destruct (payloadOf c) as [|b bs] eqn:Hc; simpl; rewrite ?Hc, IH; reflexivity.
Qed.

(** What the loop hands to [Buffer.concat] and to telemetry. *)
Lemma consumed (cs : list Chunk) :
  Buffer_concat (buffer (consume cs acc0)) = payloads cs
  /\ totalDownloadBytes (consume cs acc0) = length (payloads cs).
Proof.
  assert (H : forall cs a,
             concat (buffer (consume cs a)) = concat (buffer a) ++ payloads cs
             /\ totalDownloadBytes (consume cs a)
                = totalDownloadBytes a + length (payloads cs)).
  { clear cs. induction cs as [|c cs IH]; intros a.
    - unfold payloads. simpl. rewrite app_nil_r. split; [reflexivity | lia].
    - change (consume (c :: cs) a) with (consume cs (step a c)).
      destruct (IH (step a c)) as [Hb Ht]. rewrite Hb, Ht.
      change (payloads (c :: cs)) with (payloadOf c ++ payloads cs).
      unfold step, payloadOf.
      destruct (binaryPayloadEvent c) as [ev|]; simpl; [|split; reflexivity].
      destruct (bytes ev) as [bs|]; simpl; [|split; reflexivity].
      rewrite concat_app. simpl. rewrite app_nil_r, <- app_assoc, !length_app.
      split; [reflexivity | lia]. }
  destruct (H cs acc0) as [Hb Ht]. unfold Buffer_concat. rewrite Hb, Ht.
  split; reflexivity.
Qed.

Section Download.
Context {Args : Type}.
Variable calculateTotalLatency : Z -> Z -> Z.
Variable exportResultArchiveArgs : Args.
Variable toPath : string.

Local Abbreviation download client h :=
  (downloadExportResultArchive calculateTotalLatency client
     exportResultArchiveArgs toPath h).

(** X3. Streams compose: the file written for a stream that is one stream
    followed by another is the file of the first followed by the file of
    the second, and the reported byte counts add up. *)
Theorem download_of_appended_streams
    (rid : option string) (cs1 cs2 : list Chunk) (h : Host) :
  exists h1 h2 h12 ev1 ev2 ev12 x1 x2,
    download (streaming rid None cs1) h = Completed h1
    /\ download (streaming rid None cs2) h = Completed h2
    /\ download (streaming rid None (cs1 ++ cs2)) h = Completed h12
    /\ files h1 !! toPath = Some x1
    /\ files h2 !! toPath = Some x2
    /\ files h12 !! toPath = Some (x1 ++ x2)
    /\ last (emitted h1) = Some ev1
    /\ last (emitted h2) = Some ev2
    /\ last (emitted h12) = Some ev12
    /\ codeTransformTotalByteSize ev12
       = codeTransformTotalByteSize ev1 + codeTransformTotalByteSize ev2.
Proof.
  unfold downloadExportResultArchive, streaming. simpl.
  destruct (consumed cs1) as [Hb1 Ht1]. destruct (consumed cs2) as [Hb2 Ht2].
  destruct (consumed (cs1 ++ cs2)) as [Hb Ht].
  eexists _, _, _, _, _, _, _, _.
  repeat (split; [reflexivity|]). simpl.
  rewrite !lookup_insert_eq, !last_snoc, Hb, Hb1, Hb2, Ht, Ht1, Ht2.
  rewrite payloads_app, length_app. repeat split; reflexivity.
Qed.

(** X5. Only the chunks that carry bytes count: the call ends on a stream
    as it ends on that stream with every other chunk taken out (events of
    another kind, payload events without [bytes], payload events with an
    empty array). *)
Theorem only_chunks_with_bytes_count
    (rid : option string) (failure : option Js.Thrown) (cs : list Chunk) (h : Host) :
  download (streaming rid failure cs) h
  = download (streaming rid failure (List.filter carriesBytes cs)) h.
Proof.
  unfold downloadExportResultArchive, streaming. simpl.
  destruct (consumed cs) as [Hb Ht].
  destruct (consumed (List.filter carriesBytes cs)) as [Hb' Ht'].
  rewrite Hb, Ht, Hb', Ht', payloads_filter. reflexivity.
Qed.

End Download.

End ArchiveLaws.

(** ** The conversation session, further properties *)

Module SessionLaws.

Import Weaverbird Further.
Local Open Scope session_scope.

Section Session.
Context {P : Platform} {C : Collaborators}.

(** A step of the machine leaves the configuration, the chat sink and the
    task of the session alone. *)
Lemma turn_keeps (msg : option string) (w : World) (o : Outcome (list Interaction)) :
  Turn msg w o ->
  config (session (worldOf o)) = config (session w)
  /\ addToChat (session (worldOf o)) = addToChat (session w)
  /\ task (session (worldOf o)) = task (session w).
Proof. intros []; simpl; auto. Qed.

Lemma startCodegen_outcome (w : World) :
  config (session (worldOf (startCodegen w))) = config (session w)
  /\ addToChat (session (worldOf (startCodegen w))) = addToChat (session w)
  /\ task (session (worldOf (startCodegen w))) = task (session w).
Proof.
  destruct (heap w !! _state (session w)) as [cur|] eqn:Hcur.
  2: { unfold startCodegen, bind, state. rewrite Hcur. auto. }
  destruct (Js.truthy (conversationId cur)) eqn:Hcid.
  2: { unfold startCodegen, bind, state, throw. rewrite Hcur, Hcid. auto. }
  rewrite (SessionSpec.startCodegen_run w cur Hcur Hcid). unfold bind.
  pose proof (turn_keeps _ _ _
                (SessionSpec.nextInteraction_turn None (codeGenInstalled w cur))) as Hk.
  destruct (nextInteraction None (codeGenInstalled w cur)); exact Hk.
Qed.


(** X7. A transition to another state cancels the outgoing state and carries
    its approach over: after a step that changed [_state], the state that
    was current is still in the store with its token cancelled, and its
    approach (as its handler left it) is the approach of the session and of
    the new current state; the task is untouched. *)
Theorem transition_cancels_and_carries_approach
    (msg : option string) (w w' : World) (out : list Interaction) :
  nextInteraction msg w = Returns out w' ->
  _state (session w') <> _state (session w) ->
  exists old,
    heap w' !! _state (session w) = Some old
    /\ isCancellationRequested (tokenSource old) = true
    /\ approach (session w') = st_approach old
    /\ task (session w') = task (session w)
    /\ forall new, heap w' !! _state (session w') = Some new ->
                   st_approach new = st_approach old.
Proof.
  intros Hrun Hmoved.
  pose proof (SessionSpec.nextInteraction_turn msg w) as HT. rewrite Hrun in HT.
  inversion HT; subst; simpl in *; [congruence|].
  exists (withCancelledToken cur).
  rewrite lookup_alter_ne by assumption. rewrite lookup_alter_eq.
  match goal with Hc : _ !! _state (session w) = Some cur |- _ => rewrite Hc end.
  repeat (split; [reflexivity|]).
  intros new. rewrite lookup_alter_eq.
  destruct (alter withCancelledToken (_state (session w)) _ !! next);
    simpl; [|discriminate].
  intros [= <-]. reflexivity.
Qed.

(** X8. When a handler names its own state as the next state, that state
    stays current and its token is cancelled all the same. *)
Theorem self_transition_cancels_current_state
    (msg : option string) (w : World) (files : Files) (env1 env2 : Env)
    (resp : SessionStateInteraction) (heap2 : gmap loc SessionState)
    (cur : SessionState) :
  collectFiles (srcDir (session w)) (env w) = (inr files, env1) ->
  interact (_state (session w)) (actionFor (session w) files msg) (heap w) env1
  = (inr resp, heap2, env2) ->
  nextState resp = Some (_state (session w)) ->
  heap2 !! _state (session w) = Some cur ->
  exists w',
    nextInteraction msg w = Returns (interactions resp) w'
    /\ _state (session w') = _state (session w)
    /\ (tokenSource <$> heap w' !! _state (session w'))
       = Some {| isCancellationRequested := true |}
    /\ (st_approach <$> heap w' !! _state (session w')) = Some (st_approach cur)
    /\ approach (session w') = st_approach cur.
Proof.
  intros Hc Hi Hn Hcur.
  pose proof (SessionSpec.nextInteraction_turn msg w) as HT.
  inversion HT as [e0 env0 Hc0 | files0 env0 e0 h2 env3 Hc0 Hi0
                   | files0 env0 r h2 env3 Hc0 Hi0 Hn0
                   | files0 env0 r h2 env3 nx Hc0 Hi0 Hn0 Hcur0
                   | files0 env0 r h2 env3 nx cur0 Hc0 Hi0 Hn0 Hcur0];
    rewrite Hc in Hc0; try discriminate; injection Hc0 as <- <-;
    rewrite Hi in Hi0; try discriminate; injection Hi0 as <- <- <-;
    rewrite Hn in Hn0; try discriminate; injection Hn0 as <-;
    rewrite Hcur in Hcur0; try discriminate; injection Hcur0 as <-.
  eexists. split; [reflexivity|]. simpl.
  rewrite !lookup_alter_eq, Hcur. repeat split; reflexivity.
Qed.

(** X9. Nothing the session does changes its configuration or its chat
    sink, and [startCodegen] never changes the task: whether [send] and
    [startCodegen] return or throw, these fields are as before. *)
Theorem configuration_is_never_changed (msg : string) (w : World) :
  config (session (send msg w).2) = config (session w)
  /\ addToChat (session (send msg w).2) = addToChat (session w)
  /\ config (session (worldOf (startCodegen w))) = config (session w)
  /\ addToChat (session (worldOf (startCodegen w))) = addToChat (session w)
  /\ task (session (worldOf (startCodegen w))) = task (session w).
Proof.
  assert (Hsend : config (session (send msg w).2) = config (session w)
                  /\ addToChat (session (send msg w).2) = addToChat (session w)).
  { unfold send. destruct (String.eqb_spec msg "CLEAR") as [->|Hmsg].
    - rewrite SessionSpec.sendUnsafe_clear. auto.
    - rewrite (SessionSpec.sendUnsafe_message msg w Hmsg).
      pose proof (turn_keeps _ _ _
                    (SessionSpec.nextInteraction_turn (Some msg)
                       (withTask (taskAfter (session w) msg) w))) as (Hc & Ha & _).
      destruct (nextInteraction _ _); auto. }
  destruct Hsend as [Hc Ha]. destruct (startCodegen_outcome w) as (Hc' & Ha' & Ht').
  auto 6.
Qed.

(** X10. [startCodegen] does not undo its installation: when the
    interaction step that follows throws, [startCodegen] throws the same
    value and the session is left on the new state, at an address other than
    that of the state it replaced, with task and approach as before. *)
Theorem startCodegen_failure_leaves_codegen_installed
    (w w' : World) (cur : SessionState) (e : Js.Thrown) :
  heap w !! _state (session w) = Some cur ->
  Js.truthy (conversationId cur) = true ->
  nextInteraction None (codeGenInstalled w cur) = Throws e w' ->
  startCodegen w = Throws e w'
  /\ _state (session w') = fresh (dom (heap w))
  /\ _state (session w') <> _state (session w)
  /\ task (session w') = task (session w)
  /\ approach (session w') = approach (session w).
Proof.
  intros Hcur Hcid Hstep.
  split.
  { rewrite (SessionSpec.startCodegen_run w cur Hcur Hcid). unfold bind.
    rewrite Hstep. reflexivity. }
  pose proof (SessionSpec.nextInteraction_turn None (codeGenInstalled w cur)) as HT.
  rewrite Hstep in HT.
  destruct (SessionSpec.turn_throws _ _ _ _ HT) as [Hs _]. rewrite Hs. simpl.
  split; [reflexivity|]. split; [|auto].
  intros Heq. pose proof (is_fresh (dom (heap w))) as Hfresh.
  apply Hfresh. rewrite Heq. apply elem_of_dom. eauto.
Qed.

(** X11. One message costs the collaborators at most one call each: the
    events that [send] adds hold at most one collection of files, at most
    one handler call and at most one installation, and none of the first two
    for the control message, which leaves the surroundings as they are. *)
Theorem send_calls_collaborators_at_most_once (msg : string) (w : World) :
  exists evs,
    trace (send msg w).2 = trace w ++ evs
    /\ length (List.filter isCollect evs) <= 1
    /\ length (List.filter isInteract evs) <= 1
    /\ length (List.filter isInstall evs) <= 1
    /\ (msg = "CLEAR" ->
        List.filter isCollect evs = [] /\ List.filter isInteract evs = []
        /\ env (send msg w).2 = env w).
Proof.
  unfold send. destruct (String.eqb_spec msg "CLEAR") as [->|Hmsg].
  - rewrite SessionSpec.sendUnsafe_clear. simpl. eexists. split; [reflexivity|].
    simpl. repeat split; lia.
  - rewrite (SessionSpec.sendUnsafe_message msg w Hmsg).
    destruct (SessionSpec.nextInteraction_turn (Some msg)
                (withTask (taskAfter (session w) msg) w));
      simpl; eexists; (split; [reflexivity|]); simpl;
      repeat split; try lia; contradiction.
Qed.

(** X12. A conversation restarts after a reset: whatever the session held,
    the first message after the control message is the task again. *)
Theorem message_after_clear_is_the_task (w : World) (msg : string) :
  msg <> "CLEAR" ->
  task (session (send msg (send "CLEAR" w).2).2) = msg.
Proof.
  intros Hmsg. rewrite (SessionSpec.send_task msg _ Hmsg).
  unfold send. rewrite SessionSpec.sendUnsafe_clear. reflexivity.
Qed.

(** X13. The approach of the session and its current state change only when
    a state is installed: if [send] leaves either of them different, the
    events it added hold an installation. *)
Theorem approach_and_state_change_only_with_install (msg : string) (w : World) :
  approach (session (send msg w).2) <> approach (session w)
  \/ _state (session (send msg w).2) <> _state (session w) ->
  exists evs l,
    trace (send msg w).2 = trace w ++ evs /\ In (Install l) evs.
Proof.
  unfold send. destruct (String.eqb_spec msg "CLEAR") as [->|Hmsg].
  - rewrite SessionSpec.sendUnsafe_clear. simpl. intros _.
    eexists _, _. split; [reflexivity|]. left. reflexivity.
  - rewrite (SessionSpec.sendUnsafe_message msg w Hmsg).
    destruct (SessionSpec.nextInteraction_turn (Some msg)
                (withTask (taskAfter (session w) msg) w));
      simpl; intros [Hd|Hd]; try congruence;
      eexists _, _; (split; [reflexivity|]); simpl; eauto 6.
Qed.

(** X14. [startCodegen] replaces the state exactly when the current state
    has a conversation id that is not the empty string: only then does it
    add an installation to the trace; an empty string counts as no id. *)
Theorem startCodegen_installs_iff_conversation_id (w : World) (cur : SessionState) :
  heap w !! _state (session w) = Some cur ->
  (exists evs,
     trace (worldOf (startCodegen w))
     = trace w ++ Install (fresh (dom (heap w))) :: evs)
  <-> exists cid, conversationId cur = Some cid /\ cid <> "".
Proof.
  intros Hcur. destruct (Js.truthy (conversationId cur)) eqn:Hcid.
  - split.
    + intros _. unfold Js.truthy in Hcid.
      destruct (conversationId cur) as [cid|]; [|discriminate].
      exists cid. split; [reflexivity|].
      apply String.eqb_neq. destruct (String.eqb cid ""); [discriminate | reflexivity].
    + intros _. rewrite (SessionSpec.startCodegen_run w cur Hcur Hcid). unfold bind.
      destruct (SessionSpec.nextInteraction_turn None (codeGenInstalled w cur));
        simpl; rewrite <- app_assoc; simpl; eexists; reflexivity.
  - split.
    + intros [evs Htr]. exfalso.
      unfold startCodegen, bind, state, throw in Htr. rewrite Hcur, Hcid in Htr.
      simpl in Htr. apply (f_equal length) in Htr.
      rewrite length_app in Htr. simpl in Htr. lia.
    + intros (cid & Hsome & Hne). exfalso.
      unfold Js.truthy in Hcid. rewrite Hsome in Hcid.
      apply String.eqb_neq in Hne. rewrite Hne in Hcid. discriminate.
Qed.

(** X15. Turns driven by a message keep the cancellation discipline:
    whatever the collaborators answer, the events that [send] adds for a
    message other than the control message never install a state without
    having cancelled the current one first. *)
Theorem message_turns_cancel_before_install (msg : string) (w : World) :
  msg <> "CLEAR" ->
  exists evs,
    trace (send msg w).2 = trace w ++ evs
    /\ cancelsBeforeInstallFrom (Some (_state (session w))) false evs = true.
Proof.
  intros Hmsg. unfold send. rewrite (SessionSpec.sendUnsafe_message msg w Hmsg).
  destruct (SessionSpec.nextInteraction_turn (Some msg)
              (withTask (taskAfter (session w) msg) w));
    simpl; eexists; (split; [reflexivity|]); simpl;
    rewrite ?bool_decide_eq_true_2 by reflexivity; reflexivity.
Qed.

End Session.

Import Scenario.

(** A first turn that ends in a transition: cancel, then install. *)
Lemma message_turns_cancel_before_install_witness :
  exists evs,
    trace (send "add a cache" (fresh_session advancing)).2
    = trace (fresh_session advancing) ++ evs
    /\ cancelsBeforeInstallFrom (Some 0) false evs = true
    /\ In (Cancel 0) evs /\ In (Install 1) evs.
Proof.
  destruct (message_turns_cancel_before_install "add a cache"
              (fresh_session advancing)) as (evs & Htr & Hok); [discriminate|].
  exists evs. split; [exact Htr|]. split; [exact Hok|].
  revert Htr. vm_compute. intros Htr. injection Htr as <-.
  split; simpl; auto 6.
Defined.

(** The planned session holds the conversation id "c1". *)
Lemma startCodegen_installs_iff_conversation_id_witness :
  exists evs,
    trace (worldOf (startCodegen planned)) = trace planned ++ Install 1 :: evs.
Proof.
  assert (Hcur : exists cur, heap planned !! _state (session planned) = Some cur
                             /\ conversationId cur = Some "c1").
  { eexists. split; [vm_compute; reflexivity | reflexivity]. }
  destruct Hcur as (cur & Hcur & Hcid).
  destruct (proj2 (startCodegen_installs_iff_conversation_id planned cur Hcur))
    as [evs Htr].
  - exists "c1". split; [exact Hcid | discriminate].
  - exists evs. rewrite Htr. reflexivity.
Defined.

(** The first turn against the [advancing] backend moves from the
    refinement state at address 0 to a new state at address 1. *)
Lemma transition_cancels_and_carries_approach_witness :
  exists out w' old,
    nextInteraction (Some "add a cache") (fresh_session advancing) = Returns out w'
    /\ _state (session w') <> _state (session (fresh_session advancing))
    /\ heap w' !! 0 = Some old
    /\ isCancellationRequested (tokenSource old) = true
    /\ approach (session w') = "plan".
Proof.
  assert (Hrun : exists out w',
             nextInteraction (Some "add a cache") (fresh_session advancing)
             = Returns out w'
             /\ _state (session w') = 1 /\ approach (session w') = "plan").
  { eexists _, _. split; [vm_compute; reflexivity|]. split; reflexivity. }
  destruct Hrun as (out & w' & Hrun & Hat & Happroach).
  assert (Hmoved : _state (session w') <> _state (session (fresh_session advancing))).
  { rewrite Hat. vm_compute. discriminate. }
  destruct (transition_cancels_and_carries_approach _ _ _ _ Hrun Hmoved)
    as (old & Hold & Hcancelled & _).
  exists out, w', old. repeat split; assumption.
Defined.

(** A handler that names its own state: the state at address 0 stays
    current, with its token cancelled. *)
Lemma self_transition_cancels_current_state_witness :
  exists w',
    @nextInteraction plain selfNaming (Some "again") (fresh_session quiet)
    = Returns [note "again"] w'
    /\ _state (session w') = 0
    /\ (tokenSource <$> heap w' !! _state (session w'))
       = Some {| isCancellationRequested := true |}.
Proof.
  destruct (@self_transition_cancels_current_state plain selfNaming
              (Some "again") (fresh_session quiet) ["/ws/src"] quiet quiet
              {| nextState := Some 0; interactions := [note "again"] |}
              (storeIn 0 (Some "again") None (heap (fresh_session quiet)))
              {| classOf := RefinementStateClass;
                 stateConfig := getSessionStateConfig (session (fresh_session quiet));
                 conversationId := None; st_approach := "again";
                 tokenSource := {| isCancellationRequested := false |} |})
    as (w' & Hrun & Hat & Htoken & _).
  - reflexivity.
  - vm_compute. reflexivity.
  - reflexivity.
  - vm_compute. reflexivity.
  - exists w'. split; [exact Hrun|]. split; [rewrite Hat; reflexivity | exact Htoken].
Defined.

(** [startCodegen] on a session with a conversation id, in a workspace that
    cannot be read: it throws, and the session is on the state at address 1. *)
Lemma startCodegen_failure_leaves_codegen_installed_witness :
  exists w',
    startCodegen plannedUnreadable = Throws throttled w'
    /\ _state (session plannedUnreadable) = 0
    /\ _state (session w') = 1.
Proof.
  assert (Hcur : exists cur,
             heap plannedUnreadable !! _state (session plannedUnreadable) = Some cur
             /\ Js.truthy (conversationId cur) = true).
  { eexists. split; [vm_compute; reflexivity | reflexivity]. }
  destruct Hcur as (cur & Hcur & Hcid).
  assert (Hstep : exists w',
             nextInteraction None (codeGenInstalled plannedUnreadable cur)
             = Throws throttled w').
  { revert Hcur. vm_compute. intros [= <-]. eexists. reflexivity. }
  destruct Hstep as [w' Hstep].
  destruct (startCodegen_failure_leaves_codegen_installed plannedUnreadable w' cur
              throttled Hcur Hcid Hstep) as (Hrun & Hat & _).
  exists w'. split; [exact Hrun|]. split; [reflexivity|].
  rewrite Hat. vm_compute. reflexivity.
Defined.

(** After a reset of the planned session the next message is the task. *)
Lemma message_after_clear_is_the_task_witness :
  task (session planned) = "add a cache"
  /\ task (session (send "use redis" (send "CLEAR" planned).2).2) = "use redis".
Proof.
  split; [reflexivity|].
  apply (message_after_clear_is_the_task planned "use redis"). discriminate.
Defined.

(** The first turn against the [advancing] backend changes the approach,
    and installs a state. *)
Lemma approach_and_state_change_only_with_install_witness :
  approach (session (send "add a cache" (fresh_session advancing)).2) = "plan"
  /\ exists evs l,
       trace (send "add a cache" (fresh_session advancing)).2
       = trace (fresh_session advancing) ++ evs
       /\ In (Install l) evs.
Proof.
  split; [reflexivity|].
  apply (approach_and_state_change_only_with_install "add a cache"
           (fresh_session advancing)).
  left. vm_compute. discriminate.
Defined.

End SessionLaws.
